(** * run_strategy.py: the execution-mode dispatcher, embedded and verified

    The script [run_strategy.py] resolves a strategy class from a module
    named on the command line and then either starts a live trading run
    (behind an interactive confirmation) or a backtest over a date window.

    The embedding follows the source function by function.  Python values
    are modelled by the types the code uses them at; exceptions are values of
    [exn]; console output, console input and the calls into the external
    collaborators (lumibot's Trader, brokers and backtest engine) are
    recorded, in order, in a trace of [event]s.

    What lies outside the script is a parameter of a run ([world]): the
    clock, the operator's answer, the import system and the [credentials]
    module.  The calls into lumibot are taken to return; what they raise
    would pass through the script unchanged.  The two library functions
    whose behaviour the script depends on, [inspect.getmembers] and
    [datetime.strptime], are modelled after CPython.  Float literals are
    kept as exact decimals. *)

From Stdlib Require Import ZArith QArith Ascii String DecimalString List Lia Bool Sorted.
From stdpp Require Import gmap strings.
Import ListNotations.
Local Open Scope string_scope.
Local Open Scope Z_scope.

(** ** Python strings

    A [str] is modelled by [string]; the methods below act on ASCII, which
    is all the script's literals use.  Bytes above 127 are left alone by
    [lower], so no other text is ever mapped onto the letters y, e, s. *)

Module PyStr.

Definition is_upper (c : ascii) : bool :=
  ((65 <=? nat_of_ascii c) && (nat_of_ascii c <=? 90))%nat.

Definition lower_char (c : ascii) : ascii :=
  if is_upper c then ascii_of_nat (nat_of_ascii c + 32) else c.

(** [str.lower()] *)
Fixpoint lower (s : string) : string :=
  match s with
  | EmptyString => EmptyString
  | String c r => String (lower_char c) (lower r)
  end.

(** Position-wise comparison that ignores letter case: what the
    specification calls a case-insensitive match. *)
Fixpoint ci_match (s t : string) : bool :=
  match s, t with
  | EmptyString, EmptyString => true
  | String a s', String b t' =>
      Ascii.eqb (lower_char a) (lower_char b) && ci_match s' t'
  | _, _ => false
  end.

(** Split at the last occurrence of [sep]: [Some (before, after)], or [None]
    when [sep] does not occur. *)
Fixpoint rpartition (sep : ascii) (s : string) : option (string * string) :=
  match s with
  | EmptyString => None
  | String c r =>
      match rpartition sep r with
      | Some (b, a) => Some (String c b, a)
      | None => if Ascii.eqb c sep then Some (EmptyString, r) else None
      end
  end.

(** [s.rsplit(sep, 1)] for a one-character separator. *)
Definition rsplit1 (sep : ascii) (s : string) : list string :=
  match rpartition sep s with
  | Some (b, a) => [b; a]
  | None => [s]
  end.

Fixpoint contains (c : ascii) (s : string) : bool :=
  match s with
  | EmptyString => false
  | String d r => Ascii.eqb d c || contains c r
  end.


Definition hex_digit (n : nat) : ascii :=
  if (n <? 10)%nat then ascii_of_nat (48 + n) else ascii_of_nat (87 + n).

(** One character of [repr(s)] between the quotes [q], for ASCII text:
    the quote and the backslash are escaped, tab, newline and return have
    their letters, other control characters are written in hexadecimal. *)
Definition repr_char (q c : ascii) : string :=
  let n := nat_of_ascii c in
  if Ascii.eqb c q || Ascii.eqb c "\"%char then String "\"%char (String c EmptyString)
  else if (n =? 9)%nat then "\t"
  else if (n =? 10)%nat then "\n"
  else if (n =? 13)%nat then "\r"
  else if ((n <? 32) || (n =? 127))%nat
       then String "\"%char (String "x"%char
              (String (hex_digit (n / 16)%nat)
                 (String (hex_digit (n mod 16)%nat) EmptyString)))
  else String c EmptyString.

Fixpoint repr_body (q : ascii) (s : string) : string :=
  match s with
  | EmptyString => EmptyString
  | String c r => repr_char q c ++ repr_body q r
  end.

(** [repr(s)] for ASCII text: in single quotes, unless the text has a
    single quote and no double quote. *)
Definition repr (s : string) : string :=
  let dq := ascii_of_nat 34 in
  let q := if contains "'" s && negb (contains dq s) then dq else "'"%char in
  String q (repr_body q s ++ String q EmptyString).

End PyStr.

(** ** Exceptions

    The exception classes that the script raises or lets through.
    [ImportError] stands for the class and its subclasses
    (ModuleNotFoundError), [OtherException cls msg] for an instance of any
    other class derived from Exception (SyntaxError, AttributeError, ...).
    [SystemExit] is what the builtin [exit(code)] raises; it derives from
    BaseException, not from Exception. *)

Inductive exn : Type :=
  | ImportError (msg : string)
  | ValueError (msg : string)
  | TypeError (msg : string)
  | NameError (msg : string)
  | KeyError (key : string)
  | OverflowError (msg : string)
  | EOFError
  | OtherException (cls msg : string)
  | SystemExit (code : Z).

(** ** Dates

    A naive [datetime] is a point on the proleptic Gregorian time line,
    counted in microseconds from 0001-01-01T00:00:00 ([datetime.min]).
    [strptime] models the library function [datetime.strptime] at the one
    format the script uses, ['%Y-%m-%d'], on ASCII text.  The library's
    [\d] also matches the decimal digits of other scripts, which the model
    does not decode: what the model accepts the library accepts with the
    same result, and a rejection by the model is the library's for ASCII
    text ([PyStr.is_ascii]); statements that rest on a rejection carry that
    condition. *)

Module Datetime.

Definition datetime : Type := Z.

Definition US_PER_DAY : Z := 86400 * 1000000.
Definition MAXORDINAL : Z := 3652059.            (* date(9999, 12, 31) *)

Definition in_range (t : Z) : bool :=
  (0 <=? t) && (t <? MAXORDINAL * US_PER_DAY).

(** [t - timedelta(days=n)]; leaving years 1..9999 is an OverflowError. *)
Definition sub_days (t : datetime) (n : Z) : exn + datetime :=
  let r := t - n * US_PER_DAY in
  if in_range r then inr r else inl (OverflowError "date value out of range").

Definition is_leap (y : Z) : bool :=
  (y mod 4 =? 0) && (negb (y mod 100 =? 0) || (y mod 400 =? 0)).

Definition days_in_month (y m : Z) : Z :=
  if m =? 2 then (if is_leap y then 29 else 28)
  else if (m =? 4) || (m =? 6) || (m =? 9) || (m =? 11) then 30
  else 31.

Definition days_before_year (y : Z) : Z :=
  let p := y - 1 in p * 365 + p / 4 - p / 100 + p / 400.

Fixpoint days_before_month_aux (y : Z) (k : nat) : Z :=
  match k with
  | O => 0
  | S k' => days_before_month_aux y k' + days_in_month y (Z.of_nat k)
  end.

Definition days_before_month (y m : Z) : Z :=
  days_before_month_aux y (Z.to_nat (m - 1)).

(** [date(y, m, d).toordinal()]: 0001-01-01 is day 1. *)
Definition ymd2ord (y m d : Z) : Z :=
  days_before_year y + days_before_month y m + d.

(** [datetime(y, m, d)], midnight; ValueError outside the calendar. *)
Definition of_ymd (y m d : Z) : exn + datetime :=
  if negb ((1 <=? y) && (y <=? 9999))
  then inl (ValueError ("year " ++ NilZero.string_of_int (Z.to_int y)
                          ++ " is out of range"))
  else if negb ((1 <=? m) && (m <=? 12)) then inl (ValueError "month must be in 1..12")
  else if negb ((1 <=? d) && (d <=? days_in_month y m))
       then inl (ValueError "day is out of range for month")
  else inr ((ymd2ord y m d - 1) * US_PER_DAY).

Definition digit (c : ascii) : option Z :=
  let n := nat_of_ascii c in
  if ((48 <=? n) && (n <=? 57))%nat then Some (Z.of_nat n - 48) else None.

Definition digit_in (lo hi : Z) (c : ascii) : option Z :=
  match digit c with
  | Some d => if (lo <=? d) && (d <=? hi) then Some d else None
  | None => None
  end.

(** One regex alternative made of two digit classes, e.g. [1[0-2]]. *)
Definition two_digits (lo1 hi1 lo2 hi2 : Z) (s : string) : option (Z * string) :=
  match s with
  | String a (String b r) =>
      match digit_in lo1 hi1 a, digit_in lo2 hi2 b with
      | Some x, Some y => Some (10 * x + y, r)
      | _, _ => None
      end
  | _ => None
  end.

Definition one_digit (lo hi : Z) (s : string) : option (Z * string) :=
  match s with
  | String a r =>
      match digit_in lo hi a with Some x => Some (x, r) | None => None end
  | _ => None
  end.

Definition space_digit (s : string) : option (Z * string) :=
  match s with
  | String " "%char r => one_digit 1 9 r
  | _ => None
  end.

Definition lit (c : ascii) (s : string) : option string :=
  match s with
  | String a r => if Ascii.eqb a c then Some r else None
  | EmptyString => None
  end.

(** [(?P<Y>\d\d\d\d)] *)
Definition group_Y (s : string) : option (Z * string) :=
  match two_digits 0 9 0 9 s with
  | Some (hi, r) =>
      match two_digits 0 9 0 9 r with
      | Some (lo, r') => Some (100 * hi + lo, r')
      | None => None
      end
  | None => None
  end.

(** [(?P<m>1[0-2]|0[1-9]|[1-9])]: the alternatives that match, in the
    order the regex engine tries them. *)
Definition group_m (s : string) : list (Z * string) :=
  omap id [two_digits 1 1 0 2 s; two_digits 0 0 1 9 s; one_digit 1 9 s].

(** [(?P<d>3[0-1]|[1-2]\d|0[1-9]|[1-9]| [1-9])] *)
Definition group_d (s : string) : list (Z * string) :=
  omap id [two_digits 3 3 0 1 s; two_digits 1 2 0 9 s; two_digits 0 0 1 9 s;
           one_digit 1 9 s; space_digit s].

(** First alternative after which the continuation [k] matches
    (what backtracking finds). *)
Fixpoint first_alt {A B : Type} (alts : list (A * string))
    (k : A -> string -> option B) : option B :=
  match alts with
  | [] => None
  | (v, r) :: rest =>
      match k v r with
      | Some b => Some b
      | None => first_alt rest k
      end
  end.

(** [format_regex.match(data_string)] for ['%Y-%m-%d']: the three groups and
    the unmatched remainder. *)
Definition regex_match (s : string) : option (Z * Z * Z * string) :=
  match group_Y s with
  | Some (y, r1) =>
      match lit "-" r1 with
      | Some r2 =>
          first_alt (group_m r2) (fun m r3 =>
            match lit "-" r3 with
            | Some r4 => first_alt (group_d r4) (fun d r5 => Some (y, m, d, r5))
            | None => None
            end)
      | None => None
      end
  | None => None
  end.

(** [datetime.strptime(s, '%Y-%m-%d')] *)
Definition strptime (s : string) : exn + datetime :=
  match regex_match s with
  | None =>
      inl (ValueError ("time data " ++ PyStr.repr s
                         ++ " does not match format '%Y-%m-%d'"))
  | Some (y, m, d, rest) =>
      if negb (String.eqb rest EmptyString)
      then inl (ValueError ("unconverted data remains: " ++ rest))
      else of_ymd y m d
  end.

End Datetime.

(** ** Objects, collaborators and the trace *)

(** A class object: its [__qualname__] and the [__module__] it was
    defined in. *)
Record pyclass : Type := Class { cls_name : string; cls_module : string }.

Inductive pyobj : Type :=
  | PyClass (c : pyclass)
  | PyOther (repr : string).

(** A loaded module: [__name__] and [__dict__]; a dict keeps insertion
    order, so the bindings are listed in the order the module's source
    makes them. *)
Record pymodule : Type := Module_ { mod_name : string; mod_dict : list (string * pyobj) }.

(** The [credentials] module of the deployment, not part of the script. *)
Record Credentials : Type := {
  INTERACTIVE_BROKERS_CONFIG : gmap string string;
  KRAKEN_CONFIG : gmap string string;
  POLYGON_CONFIG : gmap string string
}.

(** The two lumibot broker classes, applied to their configuration. *)
Inductive broker : Type :=
  | InteractiveBrokers (cfg : gmap string string)
  | Ccxt (cfg : gmap string string).

Record TradingFee : Type := { percent_fee : Q }.

Inductive datasource : Type := PolygonDataBacktesting.

(** The arguments of [strategy_class.backtest(...)]. *)
Record backtest_args : Type := {
  bt_datasource : datasource;
  bt_start : Datetime.datetime;
  bt_end : Datetime.datetime;
  polygon_api_key : string;
  polygon_has_paid_subscription : bool;
  bt_risk_free_rate : Q;
  buy_trading_fees : list TradingFee;
  sell_trading_fees : list TradingFee;
  logfile : string;
  parameters : gmap string string
}.

(** What the process does to the outside, in order. *)
Inductive event : Type :=
  | Print (line : string)
  | Input (prompt : string)
  | ImportModule (name : string)
  | NewTrader
  | NewBroker (b : broker)
  | NewStrategy (cls : pyclass) (b : broker)
  | AddStrategy (cls : pyclass) (b : broker)
  | RunAll
  | Backtest (cls : pyclass) (a : backtest_args).

(** What one run of the process finds around it: the clock, the line the
    operator types ([None]: end of input), what importing a module name
    gives, and the credentials. *)
Record world : Type := {
  now : Datetime.datetime;
  stdin : option string;
  modules : string -> exn + pymodule;
  credentials : Credentials
}.

(** ** Trace-and-exception monad *)

Definition M (A : Type) : Type := (list event * (exn + A))%type.

Definition ret {A : Type} (a : A) : M A := ([], inr a).
Definition raise {A : Type} (e : exn) : M A := ([], inl e).
Definition lift {A : Type} (r : exn + A) : M A := ([], r).
Definition emit (e : event) : M unit := ([e], inr tt).

Definition bind {A B : Type} (m : M A) (f : A -> M B) : M B :=
  match m with
  | (t, inl e) => (t, inl e)
  | (t, inr a) => let (t', r) := f a in ((t ++ t')%list, r)
  end.

Notation "'let*' x ':=' m 'in' k" := (bind m (fun x => k))
  (at level 10, x name, m at level 100, k at level 200).
Notation "'run' m 'then' k" := (bind m (fun _ => k))
  (at level 10, m at level 100, k at level 200).

(** [try: body  except ImportError as e: handler] *)
Definition try_except_ImportError {A : Type} (body : M A) (handler : string -> M A) : M A :=
  match body with
  | (t, inl (ImportError msg)) => let (t', r) := handler msg in ((t ++ t')%list, r)
  | other => other
  end.

Definition trace {A : Type} (m : M A) : list event := fst m.
Definition outcome {A : Type} (m : M A) : exn + A := snd m.

(** Builtins. *)
Definition print (s : string) : M unit := emit (Print s).

Definition input (w : world) (prompt : string) : M string :=
  run emit (Input prompt) then
  match stdin w with
  | Some line => ret line
  | None => raise EOFError
  end.

Definition exit {A : Type} (code : Z) : M A := raise (SystemExit code).

Definition import_module (w : world) (name : string) : M pymodule :=
  run emit (ImportModule name) then lift (modules w name).

(** A call of a function of one required positional parameter. *)
Definition call1 {A B : Type} (fname pname : string) (f : A -> M B) (args : list A) : M B :=
  match args with
  | [a] => f a
  | [] => raise (TypeError (fname ++ "() missing 1 required positional argument: '"
                              ++ pname ++ "'"))
  | _ => raise (TypeError (fname ++ "() takes 1 positional argument but more were given"))
  end.

(** [d[key]] *)
Definition getitem (d : gmap string string) (key : string) : M string :=
  match d !! key with
  | Some v => ret v
  | None => raise (KeyError key)
  end.

(** ** The script *)

(** The [Namespace] that [parse_arguments()] returns. *)
Record arguments : Type := {
  strategy_file : string;
  live : bool;
  broker_arg : string;
  start : option string;
  end_ : option string
}.

(** [inspect.isclass] *)
Definition isclass (o : pyobj) : bool :=
  match o with PyClass _ => true | PyOther _ => false end.

(** [results.sort(key=lambda pair: pair[0])]: a stable sort on the name,
    names compared as Python compares [str]. *)
Fixpoint insert_by_name (p : string * pyobj) (l : list (string * pyobj))
    : list (string * pyobj) :=
  match l with
  | [] => [p]
  | q :: r => if String.leb (fst p) (fst q) then p :: q :: r
              else q :: insert_by_name p r
  end.

Definition sort_by_name (l : list (string * pyobj)) : list (string * pyobj) :=
  fold_right insert_by_name [] l.

(** [inspect.getmembers(module, predicate)]: the attributes of the module
    that satisfy the predicate, as (name, value) pairs sorted by name. *)
Definition getmembers (module : pymodule) (predicate : pyobj -> bool)
    : list (string * pyobj) :=
  sort_by_name (List.filter (fun p => predicate (snd p)) (mod_dict module)).

(** The [for] loop of [find_strategy_class]. *)
Fixpoint find_loop (module_name : string) (members : list (string * pyobj))
    : option pyclass :=
  match members with
  | [] => None
  | (_, PyClass obj) :: rest =>
      if String.eqb (cls_module obj) module_name then Some obj
      else find_loop module_name rest
  | (_, PyOther _) :: rest => find_loop module_name rest
  end.

Definition find_strategy_class (module : pymodule) : option pyclass :=
  find_loop (mod_name module) (getmembers module isclass).

Definition configure_broker (w : world) (broker_choice : string) : M broker :=
  if String.eqb broker_choice "IB" then
    let b := InteractiveBrokers (INTERACTIVE_BROKERS_CONFIG (credentials w)) in
    run emit (NewBroker b) then ret b
  else if String.eqb broker_choice "Kraken" then
    let b := Ccxt (KRAKEN_CONFIG (credentials w)) in
    run emit (NewBroker b) then ret b
  else
    raise (ValueError
      "Invalid broker choice. Choose 'IB' for Interactive Brokers or 'Kraken'.").

(** [run_strategy]; [module_name] is the global that the f-string of the
    log file reads ([None]: not bound).  The [from ... import] statements
    inside the function (lines 58-59, and lines 30-31, 34-35 of
    [configure_broker]) bind names of lumibot and of the [credentials]
    module: both are surroundings of the script, present in [world], and
    these statements leave no event in the trace. *)
Definition run_strategy (w : world) (module_name : option string)
    (strategy_class : pyclass) (is_live : bool) (broker_choice : string)
    (start_date end_date : option Datetime.datetime) : M unit :=
  if is_live then
    run print ("Configured to run in live mode with broker: " ++ broker_choice) then
    let* answer := input w "Do you want to proceed? (yes/no): " in
    let confirm := PyStr.lower answer in
    if negb (String.eqb confirm "yes") then
      run print "Operation cancelled." then
      ret tt
    else
      run emit NewTrader then
      let* broker := call1 "configure_broker" "broker_choice" (configure_broker w) [] in
      run emit (NewStrategy strategy_class broker) then
      run emit (AddStrategy strategy_class broker) then
      emit RunAll
  else
    let* yesterday := lift (Datetime.sub_days (now w) 1) in
    let* one_year_from_yesterday := lift (Datetime.sub_days yesterday 365) in
    let backtesting_start :=
      match start_date with Some d => d | None => one_year_from_yesterday end in
    let backtesting_end :=
      match end_date with Some d => d | None => yesterday end in
    let trading_fee := {| percent_fee := 0.005 |} in
    let risk_free_rate := 5.233%Q in
    run print "Starting Backtest..." then
    let* api_key := getitem (POLYGON_CONFIG (credentials w)) "API_KEY" in
    let* name :=
      match module_name with
      | Some n => ret n
      | None => raise (NameError "name 'module_name' is not defined")
      end in
    emit (Backtest strategy_class
      {| bt_datasource := PolygonDataBacktesting;
         bt_start := backtesting_start;
         bt_end := backtesting_end;
         polygon_api_key := api_key;
         polygon_has_paid_subscription := true;
         bt_risk_free_rate := risk_free_rate;
         buy_trading_fees := [trading_fee];
         sell_trading_fees := [trading_fee];
         logfile := "logs/" ++ name ++ ".log";
         parameters := ∅ |}).

(** [datetime.strptime(a, '%Y-%m-%d') if a else None]; an empty string is
    falsy. *)
Definition parse_date (a : option string) : M (option Datetime.datetime) :=
  match a with
  | Some s =>
      if String.eqb s "" then ret None
      else let* d := lift (Datetime.strptime s) in ret (Some d)
  | None => ret None
  end.

(** [args.strategy_file.rsplit('.', 1)[0]] *)
Definition module_name_of (a : arguments) : string :=
  nth 0 (PyStr.rsplit1 "." (strategy_file a)) "".

(** The [__main__] block, after [parse_arguments()]. *)
Definition main (w : world) (args : arguments) : M unit :=
  let module_name := module_name_of args in
  let* strategy_class :=
    try_except_ImportError
      (let* strategy_module := import_module w module_name in
       match find_strategy_class strategy_module with
       | Some c => ret c
       | None => raise (ImportError
                   ("No strategy class found in the module " ++ module_name ++ "."))
       end)
      (fun e => run print ("Error importing strategy: " ++ e) then exit 1) in
  let* start_date := parse_date (start args) in
  let* end_date := parse_date (end_ args) in
  run_strategy w (Some module_name) strategy_class (live args) (broker_arg args)
    start_date end_date.

(** Exit status of the interpreter: 0 when the script runs to its end, the
    code of a [SystemExit], 1 after any other uncaught exception. *)
Definition exit_status (r : exn + unit) : Z :=
  match r with
  | inr _ => 0
  | inl (SystemExit code) => code
  | inl _ => 1
  end.

(** ** What a trace shows *)

Definition is_NewBroker (e : event) : bool :=
  match e with NewBroker _ => true | _ => false end.
Definition is_RunAll (e : event) : bool :=
  match e with RunAll => true | _ => false end.
Definition is_Backtest (e : event) : bool :=
  match e with Backtest _ _ => true | _ => false end.

(** A broker connection was constructed. *)
Definition broker_constructed (t : list event) : bool := existsb is_NewBroker t.
(** The live trading runner was started. *)
Definition runner_started (t : list event) : bool := existsb is_RunAll t.
(** The backtest engine was invoked. *)
Definition backtest_invoked (t : list event) : bool := existsb is_Backtest t.

Definition live_session (t : list event) : bool :=
  broker_constructed t || runner_started t.
Definition backtest_session (t : list event) : bool := backtest_invoked t.

(** The calls of the backtest engine, with their arguments. *)
Fixpoint backtest_calls (t : list event) : list (pyclass * backtest_args) :=
  match t with
  | [] => []
  | Backtest c a :: r => (c, a) :: backtest_calls r
  | _ :: r => backtest_calls r
  end.

(** ** Notions used in the statements *)

(** The clock reads a datetime from 0002-01-02 on, so that going back 366
    days stays inside the calendar. *)
Definition clock_ok (w : world) : Prop :=
  366 * Datetime.US_PER_DAY <= now w < Datetime.MAXORDINAL * Datetime.US_PER_DAY.

(** The (start, end) pairs handed to the backtest engine. *)
Definition windows (t : list event) : list (Datetime.datetime * Datetime.datetime) :=
  map (fun ca => (bt_start (snd ca), bt_end (snd ca))) (backtest_calls t).

(** [base] is [file] with its extension stripped: the part before the last
    dot, or all of [file] when it has no dot. *)
Definition extension_stripped (file base : string) : Prop :=
  (exists ext, file = base ++ "." ++ ext /\ PyStr.contains "." ext = false)
  \/ (PyStr.contains "." file = false /\ base = file).





(** Exactly one of the two sessions is created, as the specification words
    its invariant. *)
Definition exactly_one_session (w : world) (args : arguments) : Prop :=
  xorb (live_session (trace (main w args)))
       (backtest_session (trace (main w args))) = true.

(** Members are ordered by their names. *)
Definition name_le (p q : string * pyobj) : Prop :=
  String.leb (fst p) (fst q) = true.

(** The first class, in the order the module declares them, that is defined
    in the module itself: the selection the specification describes. *)
Definition first_declared_class (module : pymodule) : option pyclass :=
  find_loop (mod_name module) (mod_dict module).

(** A well-formed YYYY-MM-DD date string: four digits, a
    dash, two digits, a dash, two digits, naming a day of the calendar. *)
Definition well_formed_ymd (s : string) : bool :=
  match s with
  | String y1 (String y2 (String y3 (String y4 (String "-"
      (String m1 (String m2 (String "-" (String d1 (String d2 EmptyString))))))))) =>
      match Datetime.digit y1, Datetime.digit y2, Datetime.digit y3, Datetime.digit y4,
            Datetime.digit m1, Datetime.digit m2, Datetime.digit d1, Datetime.digit d2 with
      | Some a, Some b, Some c, Some d, Some e, Some f, Some g, Some h =>
          match Datetime.of_ymd (1000 * a + 100 * b + 10 * c + d) (10 * e + f) (10 * g + h) with
          | inr _ => true
          | inl _ => false
          end
      | _, _, _, _, _, _, _, _ => false
      end
  | _ => false
  end.





(** ** Further observations on a run *)

Definition is_Input (e : event) : bool :=
  match e with Input _ => true | _ => false end.
Definition is_NewTrader (e : event) : bool :=
  match e with NewTrader => true | _ => false end.
Definition is_strategy_use (e : event) : bool :=
  match e with NewStrategy _ _ | AddStrategy _ _ => true | _ => false end.

(** The operator was asked for confirmation. *)
Definition prompted (t : list event) : bool := existsb is_Input t.
(** A Trader was constructed: the run went past the confirmation. *)
Definition trader_constructed (t : list event) : bool := existsb is_NewTrader t.
(** The strategy class was instantiated or registered with a trader. *)
Definition strategy_bound (t : list event) : bool := existsb is_strategy_use t.

(** The answers that differ from "yes" by letter case only. *)
Definition affirmative_spellings : list string :=
  ["yes"; "yeS"; "yEs"; "yES"; "Yes"; "YeS"; "YEs"; "YES"].

(** The binding holds a class whose [__module__] is [module_name]. *)
Definition is_local_class (module_name : string) (p : string * pyobj) : bool :=
  match snd p with
  | PyClass c => String.eqb (cls_module c) module_name
  | PyOther _ => false
  end.

(** The bindings of a module's namespace that hold a class defined in the
    module itself, in the order the module makes them. *)
Definition local_class_bindings (module : pymodule) : list (string * pyobj) :=
  List.filter (is_local_class (mod_name module)) (mod_dict module).

(** ** Sample surroundings, for the examples *)

Module Sample.

Definition creds : Credentials :=
  {| INTERACTIVE_BROKERS_CONFIG := {[ "IP" := "127.0.0.1" ]};
     KRAKEN_CONFIG := {[ "apiKey" := "k" ]};
     POLYGON_CONFIG := {[ "API_KEY" := "pk" ]} |}.

Definition Strategy : pyclass := Class "Strategy" "lumibot.strategies.strategy".
Definition MyStrategy : pyclass := Class "MyStrategy" "my_strategy".
Definition Zeta : pyclass := Class "Zeta" "two".
Definition Alpha : pyclass := Class "Alpha" "two".

(** [from lumibot.strategies.strategy import Strategy] and one class. *)
Definition my_strategy : pymodule :=
  {| mod_name := "my_strategy";
     mod_dict := [("__name__", PyOther "my_strategy");
                  ("Strategy", PyClass Strategy);
                  ("MyStrategy", PyClass MyStrategy)] |}.

(** A module that defines class Zeta and, below it, class Alpha. *)
Definition two : pymodule :=
  {| mod_name := "two";
     mod_dict := [("__name__", PyOther "two");
                  ("Strategy", PyClass Strategy);
                  ("Zeta", PyClass Zeta);
                  ("Alpha", PyClass Alpha)] |}.

(** The module [two] with its two classes the other way round: class Alpha
    and, below it, class Zeta. *)
Definition two_swapped : pymodule :=
  {| mod_name := "two";
     mod_dict := [("__name__", PyOther "two");
                  ("Strategy", PyClass Strategy);
                  ("Alpha", PyClass Alpha);
                  ("Zeta", PyClass Zeta)] |}.

(** A module with nothing of its own. *)
Definition empty : pymodule :=
  {| mod_name := "empty";
     mod_dict := [("__name__", PyOther "empty"); ("Strategy", PyClass Strategy)] |}.

Definition importer (name : string) : exn + pymodule :=
  if String.eqb name "my_strategy" then inr my_strategy
  else if String.eqb name "two" then inr two
  else if String.eqb name "empty" then inr empty
  else inl (ImportError ("No module named '" ++ name ++ "'")).

(** 2024-06-02T01:00:00 *)
Definition clock : Datetime.datetime :=
  (Datetime.ymd2ord 2024 6 2 - 1) * Datetime.US_PER_DAY + 3600 * 1000000.

Definition w (answer : option string) : world :=
  {| now := clock; stdin := answer; modules := importer; credentials := creds |}.

Definition backtest_my_strategy : arguments :=
  {| strategy_file := "my_strategy.py"; live := false; broker_arg := "Kraken";
     start := None; end_ := None |}.

Definition live_my_strategy (b : string) : arguments :=
  {| strategy_file := "my_strategy.py"; live := true; broker_arg := b;
     start := None; end_ := None |}.

End Sample.

(** * Properties *)

(** ** Strings *)

Section StringFacts.

Lemma ci_match_lower (s t : string) :
  PyStr.ci_match s t = String.eqb (PyStr.lower s) (PyStr.lower t).
Proof.
  revert t; induction s as [|a s IH]; intros [|b t]; simpl; try reflexivity.
  now rewrite IH.
Qed.

Lemma lower_yes_iff (s : string) :
  String.eqb (PyStr.lower s) "yes" = PyStr.ci_match s "yes".
Proof. now rewrite ci_match_lower. Qed.

Lemma rpartition_none (sep : ascii) (s : string) :
  PyStr.contains sep s = false -> PyStr.rpartition sep s = None.
Proof.
  induction s as [|c r IH]; simpl; [reflexivity|].
  intros H. apply orb_false_iff in H as [Hc Hr].
  now rewrite (IH Hr), Hc.
Qed.

Lemma rpartition_last (sep : ascii) (b a : string) :
  PyStr.contains sep a = false ->
  PyStr.rpartition sep (b ++ String sep a) = Some (b, a).
Proof.
  intros Ha. induction b as [|c b IH]; simpl.
  - now rewrite (rpartition_none _ _ Ha), Ascii.eqb_refl.
  - now rewrite IH.
Qed.

Lemma rpartition_some (sep : ascii) (s b a : string) :
  PyStr.rpartition sep s = Some (b, a) ->
  s = b ++ String sep a /\ PyStr.contains sep a = false.
Proof.
  revert b; induction s as [|c r IH]; simpl; intros b; [discriminate|].
  destruct (PyStr.rpartition sep r) as [[b' a']|] eqn:E.
  - intros [= <- <-]. destruct (IH _ eq_refl) as [-> Hn]. now split.
  - destruct (Ascii.eqb_spec c sep) as [->|]; [|discriminate].
    intros [= <- <-]. split; [reflexivity|].
    clear IH. induction r as [|d r IHr]; simpl in *; [reflexivity|].
    destruct (PyStr.rpartition sep r) as [[? ?]|]; [discriminate|].
    destruct (Ascii.eqb d sep); [discriminate|]. now apply IHr.
Qed.

Lemma string_leb_refl (a : string) : String.leb a a = true.
Proof. destruct (String.leb_total a a); assumption. Qed.

Lemma string_leb_trans (a b c : string) :
  String.leb a b = true -> String.leb b c = true -> String.leb a c = true.
Proof.
  unfold String.leb. revert b c.
  induction a as [|x a IH]; intros [|y b] [|z c]; simpl; try easy.
  unfold Ascii.compare.
  destruct (N.compare_spec (N_of_ascii x) (N_of_ascii y)) as [Hxy|Hxy|Hxy];
  destruct (N.compare_spec (N_of_ascii y) (N_of_ascii z)) as [Hyz|Hyz|Hyz];
  destruct (N.compare_spec (N_of_ascii x) (N_of_ascii z)) as [Hxz|Hxz|Hxz];
  try easy; try lia.
  apply IH.
Qed.

End StringFacts.

(** ** The broker selector *)

(** C8: for every [broker_choice], [configure_broker] returns an
    InteractiveBrokers connection (built from the IB credentials) when the
    choice is 'IB', a Ccxt connection (built from the Kraken credentials)
    when it is 'Kraken', and for every other choice constructs nothing and
    fails with the configuration error, which the code raises as a
    [ValueError]. *)
Theorem configure_broker_by_choice (w : world) :
  configure_broker w "IB"
    = ([NewBroker (InteractiveBrokers (INTERACTIVE_BROKERS_CONFIG (credentials w)))],
       inr (InteractiveBrokers (INTERACTIVE_BROKERS_CONFIG (credentials w))))
  /\ configure_broker w "Kraken"
    = ([NewBroker (Ccxt (KRAKEN_CONFIG (credentials w)))],
       inr (Ccxt (KRAKEN_CONFIG (credentials w))))
  /\ forall broker_choice : string,
       broker_choice <> "IB" -> broker_choice <> "Kraken" ->
       exists msg, configure_broker w broker_choice = ([], inl (ValueError msg)).
Proof.
  repeat split.
  intros bc HIB HKr. unfold configure_broker.
  destruct (String.eqb_spec bc "IB") as [->|_]; [contradiction|].
  destruct (String.eqb_spec bc "Kraken") as [->|_]; [contradiction|].
  eexists. reflexivity.
Qed.

Lemma configure_broker_by_choice_witness :
  "Binance" <> "IB" /\ "Binance" <> "Kraken" /\
  exists msg, configure_broker (Sample.w None) "Binance" = ([], inl (ValueError msg)).
Proof.
  split; [discriminate|]. split; [discriminate|].
  destruct (configure_broker_by_choice (Sample.w None)) as (_ & _ & H).
  apply H; discriminate.
Defined.

(** ** The confirmation gate *)

(** C2: in live mode, when the operator's answer is not a case-insensitive
    match of "yes", [run_strategy] prints the configuration line, asks,
    prints "Operation cancelled." and returns normally, so the exit status is
    zero; no broker connection is constructed and no runner is started. *)
Theorem declined_confirmation_cancels
    (w : world) (module_name : option string) (strategy_class : pyclass)
    (broker_choice : string) (start_date end_date : option Datetime.datetime)
    (answer : string) :
  stdin w = Some answer ->
  PyStr.ci_match answer "yes" = false ->
  let r := run_strategy w module_name strategy_class true broker_choice
             start_date end_date in
  r = ([Print ("Configured to run in live mode with broker: " ++ broker_choice);
        Input "Do you want to proceed? (yes/no): ";
        Print "Operation cancelled."], inr tt)
  /\ exit_status (outcome r) = 0
  /\ broker_constructed (trace r) = false
  /\ runner_started (trace r) = false.
Proof.
  intros Hin Hno r.
  assert (Hr : r = ([Print ("Configured to run in live mode with broker: " ++ broker_choice);
                     Input "Do you want to proceed? (yes/no): ";
                     Print "Operation cancelled."], inr tt)).
  { subst r. unfold run_strategy, input. rewrite Hin. cbn [bind print emit ret app].
    rewrite lower_yes_iff, Hno. reflexivity. }
  rewrite Hr. repeat split.
Qed.

Lemma declined_confirmation_cancels_witness :
  stdin (Sample.w (Some "Yes please")) = Some "Yes please"
  /\ PyStr.ci_match "Yes please" "yes" = false
  /\ run_strategy (Sample.w (Some "Yes please")) (Some "my_strategy")
       Sample.MyStrategy true "Kraken" None None
     = ([Print "Configured to run in live mode with broker: Kraken";
         Input "Do you want to proceed? (yes/no): ";
         Print "Operation cancelled."], inr tt).
Proof.
  split; [reflexivity|]. split; [reflexivity|].
  exact (proj1 (declined_confirmation_cancels (Sample.w (Some "Yes please"))
                  (Some "my_strategy") Sample.MyStrategy "Kraken" None None
                  "Yes please" eq_refl eq_refl)).
Defined.

(** ** The live path *)

(** C1 (the code at the input of the claim): live mode, broker 'IB', answer
    "yes".  [run_strategy] constructs the Trader and then calls
    [configure_broker] with no argument, which raises a [TypeError]: no
    broker connection is obtained, the strategy is not bound and the runner
    is not started. *)
Theorem live_IB_yes_stops_at_configure_broker
    (clock : Datetime.datetime) (importer : string -> exn + pymodule)
    (creds : Credentials) (module_name : option string)
    (strategy_class : pyclass) (start_date end_date : option Datetime.datetime) :
  run_strategy {| now := clock; stdin := Some "yes"; modules := importer;
                  credentials := creds |}
    module_name strategy_class true "IB" start_date end_date
  = ([Print "Configured to run in live mode with broker: IB";
      Input "Do you want to proceed? (yes/no): ";
      NewTrader],
     inl (TypeError
       "configure_broker() missing 1 required positional argument: 'broker_choice'")).
Proof. reflexivity. Qed.

(** ** The backtest path *)

Section Backtest.

Variable w : world.
Variable key : string.
Hypothesis Hclock : clock_ok w.
Hypothesis Hkey : POLYGON_CONFIG (credentials w) !! "API_KEY" = Some key.

Lemma yesterday_ok :
  Datetime.sub_days (now w) 1 = inr (now w - Datetime.US_PER_DAY).
Proof.
  unfold Datetime.sub_days, Datetime.in_range. rewrite Z.mul_1_l.
  destruct Hclock as [Hlo Hhi].
  assert (H0 : 0 < Datetime.US_PER_DAY) by reflexivity.
  replace (0 <=? now w - Datetime.US_PER_DAY) with true by (symmetry; apply Z.leb_le; lia).
  replace (now w - Datetime.US_PER_DAY <? Datetime.MAXORDINAL * Datetime.US_PER_DAY)
    with true by (symmetry; apply Z.ltb_lt; lia).
  reflexivity.
Qed.

Lemma one_year_from_yesterday_ok :
  Datetime.sub_days (now w - Datetime.US_PER_DAY) 365
  = inr (now w - Datetime.US_PER_DAY - 365 * Datetime.US_PER_DAY).
Proof.
  unfold Datetime.sub_days, Datetime.in_range.
  destruct Hclock as [Hlo Hhi].
  assert (H0 : 0 < Datetime.US_PER_DAY) by reflexivity.
  replace (0 <=? now w - Datetime.US_PER_DAY - 365 * Datetime.US_PER_DAY)
    with true by (symmetry; apply Z.leb_le; lia).
  replace (now w - Datetime.US_PER_DAY - 365 * Datetime.US_PER_DAY
             <? Datetime.MAXORDINAL * Datetime.US_PER_DAY)
    with true by (symmetry; apply Z.ltb_lt; lia).
  reflexivity.
Qed.

(** What [run_strategy] does in backtest mode, in full. *)
Lemma run_strategy_backtest (name : string) (strategy_class : pyclass)
    (broker_choice : string) (start_date end_date : option Datetime.datetime) :
  run_strategy w (Some name) strategy_class false broker_choice start_date end_date
  = ([Print "Starting Backtest...";
      Backtest strategy_class
        {| bt_datasource := PolygonDataBacktesting;
           bt_start := match start_date with
                       | Some d => d
                       | None => now w - Datetime.US_PER_DAY - 365 * Datetime.US_PER_DAY
                       end;
           bt_end := match end_date with
                     | Some d => d
                     | None => now w - Datetime.US_PER_DAY
                     end;
           polygon_api_key := key;
           polygon_has_paid_subscription := true;
           bt_risk_free_rate := 5.233%Q;
           buy_trading_fees := [{| percent_fee := 0.005 |}];
           sell_trading_fees := [{| percent_fee := 0.005 |}];
           logfile := "logs/" ++ name ++ ".log";
           parameters := ∅ |}],
     inr tt).
Proof.
  unfold run_strategy, getitem.
  rewrite yesterday_ok. cbn [lift bind app].
  rewrite one_year_from_yesterday_ok. cbn [lift bind app print emit].
  rewrite Hkey. reflexivity.
Qed.

End Backtest.

(** C3: in backtest mode the two bounds that are not supplied come from the
    clock alone, [yesterday = now - 1 day] for the end and
    [yesterday - 365 days] for the start (a day is 86400000000
    microseconds); a pair of supplied dates reaches the engine unchanged,
    and with one bound supplied the other is the default, whatever the
    supplied bound is. *)
Theorem run_window_keeps_supplied_bounds
    (w : world) (key name : string) (strategy_class : pyclass) (broker_choice : string) :
  clock_ok w ->
  POLYGON_CONFIG (credentials w) !! "API_KEY" = Some key ->
  exists yesterday one_year_from_yesterday : Datetime.datetime,
    yesterday = now w - 86400000000
    /\ one_year_from_yesterday = yesterday - 365 * 86400000000
    /\ Datetime.sub_days (now w) 1 = inr yesterday
    /\ Datetime.sub_days yesterday 365 = inr one_year_from_yesterday
    /\ (forall s e,
          windows (trace (run_strategy w (Some name) strategy_class false
                            broker_choice (Some s) (Some e))) = [(s, e)])
    /\ (forall s,
          windows (trace (run_strategy w (Some name) strategy_class false
                            broker_choice (Some s) None)) = [(s, yesterday)])
    /\ (forall e,
          windows (trace (run_strategy w (Some name) strategy_class false
                            broker_choice None (Some e)))
          = [(one_year_from_yesterday, e)]).
Proof.
  intros Hclock Hkey.
  exists (now w - Datetime.US_PER_DAY),
         (now w - Datetime.US_PER_DAY - 365 * Datetime.US_PER_DAY).
  split; [reflexivity|]. split; [reflexivity|].
  split; [now apply yesterday_ok|].
  split; [now apply one_year_from_yesterday_ok|].
  repeat split; intros; now rewrite (run_strategy_backtest w key Hclock Hkey).
Qed.

(** ** The main block *)

Lemma parse_date_trace (a : option string) : trace (parse_date a) = [].
Proof.
  destruct a as [s|]; [|reflexivity]. unfold parse_date.
  destruct (String.eqb s ""); [reflexivity|].
  now destruct (Datetime.strptime s).
Qed.

Lemma parse_date_eta (a : option string) : parse_date a = ([], outcome (parse_date a)).
Proof.
  rewrite <- (parse_date_trace a). now destruct (parse_date a).
Qed.

(** When resolution succeeds, [main] is the import followed by the two date
    conversions and the dispatcher. *)
Lemma main_resolved (w : world) (args : arguments) (m : pymodule) (c : pyclass) :
  modules w (module_name_of args) = inr m ->
  find_strategy_class m = Some c ->
  main w args
  = (run emit (ImportModule (module_name_of args)) then
     let* start_date := parse_date (start args) in
     let* end_date := parse_date (end_ args) in
     run_strategy w (Some (module_name_of args)) c (live args) (broker_arg args)
       start_date end_date).
Proof.
  intros Hm Hc. unfold main, import_module. rewrite Hm.
  cbn [emit lift bind app try_except_ImportError]. rewrite Hc.
  cbn [ret bind app try_except_ImportError].
  destruct (let* start_date := parse_date (start args) in _) as [t r].
  reflexivity.
Qed.

Lemma main_dispatches (w : world) (args : arguments) (m : pymodule) (c : pyclass)
    (sd ed : option Datetime.datetime) :
  modules w (module_name_of args) = inr m ->
  find_strategy_class m = Some c ->
  outcome (parse_date (start args)) = inr sd ->
  outcome (parse_date (end_ args)) = inr ed ->
  main w args
  = (ImportModule (module_name_of args)
       :: trace (run_strategy w (Some (module_name_of args)) c (live args)
                   (broker_arg args) sd ed),
     outcome (run_strategy w (Some (module_name_of args)) c (live args)
                (broker_arg args) sd ed)).
Proof.
  intros Hm Hc Hs He. rewrite (main_resolved w args m c Hm Hc).
  rewrite (parse_date_eta (start args)), Hs, (parse_date_eta (end_ args)), He.
  cbn [emit bind app].
  now destruct (run_strategy _ _ _ _ _ _ _).
Qed.

Lemma module_name_strips_extension (args : arguments) :
  extension_stripped (strategy_file args) (module_name_of args).
Proof.
  unfold extension_stripped, module_name_of, PyStr.rsplit1.
  destruct (PyStr.rpartition "." (strategy_file args)) as [[b a]|] eqn:E.
  - left. exists a. now apply rpartition_some in E.
  - right. split; [|reflexivity].
    destruct (PyStr.contains "." (strategy_file args)) eqn:C; [|reflexivity].
    exfalso. revert E C. generalize (strategy_file args) as s.
    induction s as [|c r IH]; simpl; [discriminate|].
    destruct (PyStr.rpartition "." r) as [[? ?]|]; [discriminate|].
    destruct (Ascii.eqb c "."); [discriminate|]. simpl. now apply IH.
Qed.

Lemma extension_stripped_unique (file base : string) (args : arguments) :
  strategy_file args = file ->
  extension_stripped file base -> module_name_of args = base.
Proof.
  intros <- [[ext [Hf Hext]]|[Hno ->]]; unfold module_name_of, PyStr.rsplit1.
  - rewrite Hf. change (base ++ "." ++ ext) with (base ++ String "." ext).
    now rewrite (rpartition_last _ _ _ Hext).
  - now rewrite (rpartition_none _ _ Hno).
Qed.

Lemma sample_clock_ok (answer : option string) : clock_ok (Sample.w answer).
Proof. split; [discriminate | reflexivity]. Defined.

Lemma sample_key (answer : option string) :
  POLYGON_CONFIG (credentials (Sample.w answer)) !! "API_KEY" = Some "pk".
Proof. reflexivity. Defined.

Lemma run_window_keeps_supplied_bounds_witness :
  clock_ok (Sample.w None) /\
  exists yesterday one_year_from_yesterday : Datetime.datetime,
    yesterday = Sample.clock - 86400000000
    /\ one_year_from_yesterday = yesterday - 365 * 86400000000
    /\ windows (trace (run_strategy (Sample.w None) (Some "my_strategy")
                         Sample.MyStrategy false "Kraken" None (Some 0)))
       = [(one_year_from_yesterday, 0)]
    /\ windows (trace (run_strategy (Sample.w None) (Some "my_strategy")
                         Sample.MyStrategy false "Kraken" (Some 0) None))
       = [(0, yesterday)].
Proof.
  split; [apply sample_clock_ok|].
  destruct (run_window_keeps_supplied_bounds (Sample.w None) "pk" "my_strategy"
              Sample.MyStrategy "Kraken" (sample_clock_ok None) (sample_key None))
    as (y & o & Hy & Ho & _ & _ & _ & Hs & He).
  exists y, o. repeat split; [exact Hy | exact Ho | apply He | apply Hs].
Defined.

(** C4: an invocation in backtest mode without --start and without --end
    calls the backtest engine once, with [end = now - 1 day] and
    [start = end - 365 days] (a day is 86400000000 microseconds). *)
Theorem default_window_is_trailing_year
    (w : world) (args : arguments) (m : pymodule) (strategy_class : pyclass)
    (key : string) :
  live args = false ->
  start args = None ->
  end_ args = None ->
  modules w (module_name_of args) = inr m ->
  find_strategy_class m = Some strategy_class ->
  clock_ok w ->
  POLYGON_CONFIG (credentials w) !! "API_KEY" = Some key ->
  exists a : backtest_args,
    backtest_calls (trace (main w args)) = [(strategy_class, a)]
    /\ bt_end a = now w - 86400000000
    /\ bt_start a = bt_end a - 365 * 86400000000
    /\ Datetime.sub_days (now w) 1 = inr (bt_end a)
    /\ Datetime.sub_days (bt_end a) 365 = inr (bt_start a).
Proof.
  intros Hlive Hs He Hm Hc Hclock Hkey.
  rewrite (main_dispatches w args m strategy_class None None Hm Hc)
    by (rewrite ?Hs, ?He; reflexivity).
  rewrite Hlive, (run_strategy_backtest w key Hclock Hkey).
  eexists. split; [reflexivity|]. cbn [bt_end bt_start].
  split; [reflexivity|]. split; [reflexivity|].
  split; [now apply yesterday_ok | now apply one_year_from_yesterday_ok].
Qed.

Lemma default_window_is_trailing_year_witness :
  exists a : backtest_args,
    backtest_calls (trace (main (Sample.w None) Sample.backtest_my_strategy))
      = [(Sample.MyStrategy, a)]
    /\ bt_end a = Sample.clock - 86400000000
    /\ bt_start a = bt_end a - 365 * 86400000000
    /\ Datetime.sub_days Sample.clock 1 = inr (bt_end a)
    /\ Datetime.sub_days (bt_end a) 365 = inr (bt_start a).
Proof.
  apply (default_window_is_trailing_year (Sample.w None) Sample.backtest_my_strategy
           Sample.my_strategy Sample.MyStrategy "pk"
           eq_refl eq_refl eq_refl eq_refl eq_refl
           (sample_clock_ok None) (sample_key None)).
Defined.

(** C9: every backtest invocation hands the engine one and the same
    percentage fee (0.005) for the buy and for the sell leg, the fixed
    risk-free rate 5.233, the paid-subscription flag set, an empty
    parameters dict, and the log file [logs/<base>.log], where [<base>] is
    the [strategy_file] argument with its extension stripped. *)
Theorem backtest_engine_arguments
    (w : world) (args : arguments) (m : pymodule) (strategy_class : pyclass)
    (sd ed : option Datetime.datetime) (key : string) :
  live args = false ->
  modules w (module_name_of args) = inr m ->
  find_strategy_class m = Some strategy_class ->
  outcome (parse_date (start args)) = inr sd ->
  outcome (parse_date (end_ args)) = inr ed ->
  clock_ok w ->
  POLYGON_CONFIG (credentials w) !! "API_KEY" = Some key ->
  exists (a : backtest_args) (base : string),
    backtest_calls (trace (main w args)) = [(strategy_class, a)]
    /\ buy_trading_fees a = [{| percent_fee := 0.005 |}]
    /\ sell_trading_fees a = buy_trading_fees a
    /\ bt_risk_free_rate a = 5.233%Q
    /\ polygon_has_paid_subscription a = true
    /\ parameters a = ∅
    /\ extension_stripped (strategy_file args) base
    /\ logfile a = "logs/" ++ base ++ ".log".
Proof.
  intros Hlive Hm Hc Hs He Hclock Hkey.
  rewrite (main_dispatches w args m strategy_class sd ed Hm Hc Hs He).
  rewrite Hlive, (run_strategy_backtest w key Hclock Hkey).
  eexists. exists (module_name_of args).
  split; [reflexivity|]. cbn.
  repeat split. apply module_name_strips_extension.
Qed.

Lemma backtest_engine_arguments_witness :
  exists (a : backtest_args) (base : string),
    backtest_calls (trace (main (Sample.w None) Sample.backtest_my_strategy))
      = [(Sample.MyStrategy, a)]
    /\ buy_trading_fees a = [{| percent_fee := 0.005 |}]
    /\ sell_trading_fees a = buy_trading_fees a
    /\ bt_risk_free_rate a = 5.233%Q
    /\ polygon_has_paid_subscription a = true
    /\ parameters a = ∅
    /\ extension_stripped "my_strategy.py" base
    /\ logfile a = "logs/" ++ base ++ ".log".
Proof.
  apply (backtest_engine_arguments (Sample.w None) Sample.backtest_my_strategy
           Sample.my_strategy Sample.MyStrategy None None "pk"
           eq_refl eq_refl eq_refl eq_refl eq_refl
           (sample_clock_ok None) (sample_key None)).
Defined.

(** ** Resolution failure *)

Section ResolutionFailure.

Variable w : world.
Variable args : arguments.




End ResolutionFailure.



(** ** One path per invocation *)

Section Quiet.

Variable P : event -> bool.

Lemma quiet_bind {A B : Type} (m : M A) (f : A -> M B) :
  existsb P (trace m) = false ->
  (forall a, existsb P (trace (f a)) = false) ->
  existsb P (trace (bind m f)) = false.
Proof.
  destruct m as [t [e|a]]; simpl; intros Hm Hf; [exact Hm|].
  specialize (Hf a). destruct (f a) as [t' r]. simpl in *.
  rewrite existsb_app, Hm, Hf. reflexivity.
Qed.

Lemma quiet_try {A : Type} (body : M A) (handler : string -> M A) :
  existsb P (trace body) = false ->
  (forall msg, existsb P (trace (handler msg)) = false) ->
  existsb P (trace (try_except_ImportError body handler)) = false.
Proof.
  destruct body as [t [e|a]]; simpl; intros Hm Hh; [|exact Hm].
  destruct e; try exact Hm.
  specialize (Hh msg). destruct (handler msg) as [t' r]. simpl in *.
  rewrite existsb_app, Hm, Hh. reflexivity.
Qed.

Lemma quiet_lift {A : Type} (r : exn + A) : existsb P (trace (lift r)) = false.
Proof. reflexivity. Qed.

Lemma quiet_parse_date (a : option string) : existsb P (trace (parse_date a)) = false.
Proof. now rewrite parse_date_trace. Qed.

End Quiet.

Ltac quiet_step :=
  first
    [ apply quiet_parse_date
    | apply quiet_lift
    | apply quiet_bind; [|intros ?]
    | apply quiet_try; [|intros ?]
    | reflexivity ].

Lemma live_run_never_backtests
    (w : world) (module_name : option string) (c : pyclass) (broker_choice : string)
    (sd ed : option Datetime.datetime) :
  backtest_invoked (trace (run_strategy w module_name c true broker_choice sd ed)) = false.
Proof.
  unfold backtest_invoked, run_strategy, input.
  repeat quiet_step.
  - now destruct (stdin w).
  - destruct (negb _); repeat quiet_step.
Qed.

Lemma backtest_run_never_trades
    (w : world) (module_name : option string) (c : pyclass) (broker_choice : string)
    (sd ed : option Datetime.datetime) :
  broker_constructed (trace (run_strategy w module_name c false broker_choice sd ed)) = false
  /\ runner_started (trace (run_strategy w module_name c false broker_choice sd ed)) = false.
Proof.
  unfold broker_constructed, runner_started, run_strategy, getitem.
  split; repeat quiet_step;
    try (now destruct (POLYGON_CONFIG (credentials w) !! "API_KEY"));
    try (now destruct module_name).
Qed.

Lemma main_trace_quiet (P : event -> bool) (w : world) (args : arguments) :
  (forall name, P (ImportModule name) = false) ->
  (forall line, P (Print line) = false) ->
  (forall name c sd ed,
     existsb P (trace (run_strategy w name c (live args) (broker_arg args) sd ed)) = false) ->
  existsb P (trace (main w args)) = false.
Proof.
  intros Himp Hprint Hrun. unfold main, import_module, exit, print, emit.
  repeat quiet_step; simpl; rewrite ?Himp, ?Hprint; try reflexivity.
  - now destruct (find_strategy_class _).
  - apply Hrun.
Qed.

(** C7 as worded fails: a live invocation whose confirmation is answered
    "no" creates neither a live session nor a backtest session. *)
Lemma declined_live_run_has_no_session :
  ~ exactly_one_session (Sample.w (Some "no")) (Sample.live_my_strategy "IB").
Proof. unfold exactly_one_session. vm_compute. discriminate. Qed.

(** C7, amended: every invocation creates at most one of the two sessions.
    In live mode the backtest engine is never invoked; in backtest mode no
    broker connection is constructed and the live runner is never started;
    no invocation has both. *)
Theorem at_most_one_session (w : world) (args : arguments) :
  (if live args
   then backtest_invoked (trace (main w args)) = false
   else broker_constructed (trace (main w args)) = false
        /\ runner_started (trace (main w args)) = false)
  /\ live_session (trace (main w args)) && backtest_session (trace (main w args)) = false.
Proof.
  assert (H : if live args
   then backtest_invoked (trace (main w args)) = false
   else broker_constructed (trace (main w args)) = false
        /\ runner_started (trace (main w args)) = false).
  { destruct (live args) eqn:Hlive.
    - apply main_trace_quiet; try reflexivity.
      intros. rewrite Hlive. apply live_run_never_backtests.
    - split; apply main_trace_quiet; try reflexivity; intros; rewrite Hlive;
        apply backtest_run_never_trades. }
  split; [exact H|].
  unfold live_session, backtest_session.
  destruct (live args).
  - rewrite H. apply andb_false_r.
  - destruct H as [-> ->]. reflexivity.
Qed.

(** ** The strategy resolver *)

Section Resolver.

Lemma In_insert_by_name (p q : string * pyobj) (l : list (string * pyobj)) :
  In q (insert_by_name p l) <-> q = p \/ In q l.
Proof.
  induction l as [|x l IH]; simpl.
  - intuition congruence.
  - destruct (String.leb (fst p) (fst x)); simpl; [intuition congruence|].
    rewrite IH. intuition congruence.
Qed.

Lemma In_sort_by_name (q : string * pyobj) (l : list (string * pyobj)) :
  In q (sort_by_name l) <-> In q l.
Proof.
  induction l as [|x l IH]; simpl; [reflexivity|].
  rewrite In_insert_by_name, IH. intuition congruence.
Qed.

Lemma insert_by_name_sorted (p : string * pyobj) (l : list (string * pyobj)) :
  StronglySorted name_le l -> StronglySorted name_le (insert_by_name p l).
Proof.
  induction 1 as [|x l Hs IH Hx]; simpl.
  - constructor; constructor.
  - destruct (String.leb (fst p) (fst x)) eqn:Hpx.
    + constructor; [now constructor|].
      constructor; [exact Hpx|].
      rewrite List.Forall_forall in Hx |- *. intros y Hy.
      exact (string_leb_trans _ _ _ Hpx (Hx y Hy)).
    + constructor; [exact IH|].
      rewrite List.Forall_forall in Hx |- *. intros y Hy.
      apply In_insert_by_name in Hy as [->|Hy]; [|now apply Hx].
      unfold name_le. destruct (String.leb_total (fst p) (fst x)) as [H|H];
        [congruence | exact H].
Qed.

Lemma sort_by_name_sorted (l : list (string * pyobj)) :
  StronglySorted name_le (sort_by_name l).
Proof.
  induction l as [|x l IH]; simpl; [constructor | now apply insert_by_name_sorted].
Qed.

(** On a list sorted by name the loop returns a class of the module whose
    name is the least among the classes of the module; it returns nothing
    only when the list has no such class. *)
Lemma find_loop_sorted (module_name : string) (l : list (string * pyobj)) :
  StronglySorted name_le l ->
  match find_loop module_name l with
  | Some c =>
      cls_module c = module_name
      /\ exists n, In (n, PyClass c) l
           /\ forall n' c', In (n', PyClass c') l -> cls_module c' = module_name ->
                String.leb n n' = true
  | None => forall n c, In (n, PyClass c) l -> cls_module c <> module_name
  end.
Proof.
  induction 1 as [|[n o] l Hs IH Hx]; simpl.
  - intros n c [].
  - destruct o as [c|r].
    + destruct (String.eqb_spec (cls_module c) module_name) as [Heq|Hne].
      * split; [exact Heq|]. exists n. split; [now left|].
        intros n' c' [[= -> ->]|Hin] _; [apply string_leb_refl|].
        rewrite List.Forall_forall in Hx. exact (Hx _ Hin).
      * destruct (find_loop module_name l) as [c0|].
        -- destruct IH as (Hc0 & n0 & Hin0 & Hmin). split; [exact Hc0|].
           exists n0. split; [now right|].
           intros n' c' [[= -> ->]|Hin] Hloc; [contradiction | now apply (Hmin n' c')].
        -- intros n' c' [[= -> ->]|Hin]; [exact Hne | now apply (IH n' c')].
    + destruct (find_loop module_name l) as [c0|].
      * destruct IH as (Hc0 & n0 & Hin0 & Hmin). split; [exact Hc0|].
        exists n0. split; [now right|].
        intros n' c' [[=]|Hin] Hloc. now apply (Hmin n' c').
      * intros n' c' [[=]|Hin]. now apply (IH n' c').
Qed.

Lemma In_getmembers_isclass (module : pymodule) (n : string) (c : pyclass) :
  In (n, PyClass c) (getmembers module isclass) <-> In (n, PyClass c) (mod_dict module).
Proof.
  unfold getmembers. rewrite In_sort_by_name, List.filter_In. simpl. tauto.
Qed.

End Resolver.

(** C5 as worded fails: the module [two] declares class Zeta and then
    class Alpha; the resolver returns Alpha, not the first declared. *)
Lemma resolver_is_not_declaration_order :
  find_strategy_class Sample.two = Some Sample.Alpha
  /\ first_declared_class Sample.two = Some Sample.Zeta
  /\ find_strategy_class Sample.two <> first_declared_class Sample.two.
Proof. repeat split. discriminate. Qed.

(** C5, amended: the resolver returns a class bound in the module whose
    [__module__] is the module's name (classes imported from elsewhere, the
    base strategy among them, are passed over); when the module has several
    such classes it returns the one whose attribute name is least in string
    order, the order in which [inspect.getmembers] lists them; it returns
    nothing exactly when the module has no such class. *)
Theorem resolver_selects_least_named_local_class (module : pymodule) :
  match find_strategy_class module with
  | Some c =>
      cls_module c = mod_name module
      /\ exists n, In (n, PyClass c) (mod_dict module)
           /\ forall n' c', In (n', PyClass c') (mod_dict module) ->
                cls_module c' = mod_name module -> String.leb n n' = true
  | None =>
      forall n c, In (n, PyClass c) (mod_dict module) -> cls_module c <> mod_name module
  end.
Proof.
  unfold find_strategy_class.
  pose proof (find_loop_sorted (mod_name module) (getmembers module isclass)
                (sort_by_name_sorted _)) as H.
  destruct (find_loop (mod_name module) (getmembers module isclass)) as [c|].
  - destruct H as (Hc & n & Hin & Hmin). split; [exact Hc|].
    exists n. split; [now apply In_getmembers_isclass|].
    intros n' c' Hin' Hloc. apply (Hmin n' c'); [|exact Hloc].
    now apply In_getmembers_isclass.
  - intros n c Hin. apply (H n c). now apply In_getmembers_isclass.
Qed.

(** ** Date arguments *)

(** What [strptime] accepts: every well-formed date, and more. *)

Section Accepts.
Import Datetime.

Lemma digit_range (c : ascii) (v : Z) : digit c = Some v -> 0 <= v <= 9.
Proof.
  unfold digit. destruct (_ && _)%bool eqn:E; [|discriminate].
  intros [= <-]. apply andb_true_iff in E as [H1 H2].
  apply Nat.leb_le in H1, H2. lia.
Qed.

Lemma digit_in_of_digit (lo hi : Z) (c : ascii) (v : Z) :
  digit c = Some v ->
  digit_in lo hi c = if (lo <=? v) && (v <=? hi) then Some v else None.
Proof. unfold digit_in. now intros ->. Qed.

Lemma two_digits_any (a b : ascii) (x y : Z) (r : string) :
  digit a = Some x -> digit b = Some y ->
  two_digits 0 9 0 9 (String a (String b r)) = Some (10 * x + y, r).
Proof.
  intros Ha Hb. unfold two_digits.
  rewrite (digit_in_of_digit _ _ _ _ Ha), (digit_in_of_digit _ _ _ _ Hb).
  apply digit_range in Ha, Hb.
  replace (0 <=? x) with true by (symmetry; apply Z.leb_le; lia).
  replace (x <=? 9) with true by (symmetry; apply Z.leb_le; lia).
  replace (0 <=? y) with true by (symmetry; apply Z.leb_le; lia).
  replace (y <=? 9) with true by (symmetry; apply Z.leb_le; lia).
  reflexivity.
Qed.

Ltac enum_digit v :=
  let H := fresh in
  assert (H : v = 0 \/ v = 1 \/ v = 2 \/ v = 3 \/ v = 4 \/ v = 5 \/ v = 6 \/ v = 7
              \/ v = 8 \/ v = 9) by lia;
  destruct H as [->|[->|[->|[->|[->|[->|[->|[->|[->| ->]]]]]]]]].

Lemma group_m_padded {B : Type} (a b : ascii) (x y : Z) (r : string)
    (k : Z -> string -> option B) (res : B) :
  digit a = Some x -> digit b = Some y -> 1 <= 10 * x + y <= 12 ->
  k (10 * x + y) r = Some res ->
  first_alt (group_m (String a (String b r))) k = Some res.
Proof.
  intros Ha Hb Hm Hk. unfold group_m, two_digits, one_digit.
  rewrite !(digit_in_of_digit _ _ _ _ Ha), !(digit_in_of_digit _ _ _ _ Hb).
  pose proof (digit_range _ _ Ha). pose proof (digit_range _ _ Hb).
  enum_digit x; try lia; enum_digit y; try lia; cbn in Hk |- *; now rewrite Hk.
Qed.

Lemma group_d_padded {B : Type} (a b : ascii) (x y : Z) (r : string)
    (k : Z -> string -> option B) (res : B) :
  digit a = Some x -> digit b = Some y -> 1 <= 10 * x + y <= 31 ->
  k (10 * x + y) r = Some res ->
  first_alt (group_d (String a (String b r))) k = Some res.
Proof.
  intros Ha Hb Hm Hk. unfold group_d, two_digits, one_digit, space_digit.
  rewrite !(digit_in_of_digit _ _ _ _ Ha), !(digit_in_of_digit _ _ _ _ Hb).
  pose proof (digit_range _ _ Ha). pose proof (digit_range _ _ Hb).
  enum_digit x; try lia; enum_digit y; try lia; cbn in Hk |- *; now rewrite Hk.
Qed.

Lemma of_ymd_bounds (y m d : Z) (t : datetime) :
  of_ymd y m d = inr t -> 1 <= m <= 12 /\ 1 <= d <= 31.
Proof.
  unfold of_ymd.
  destruct ((1 <=? y) && (y <=? 9999)); [|discriminate].
  destruct ((1 <=? m) && (m <=? 12)) eqn:Em; [|discriminate].
  destruct ((1 <=? d) && (d <=? days_in_month y m)) eqn:Ed; [|discriminate].
  intros _. simpl in *.
  apply andb_true_iff in Em as [M1 M2], Ed as [D1 D2].
  apply Z.leb_le in M1, M2, D1, D2.
  assert (days_in_month y m <= 31).
  { unfold days_in_month.
    repeat match goal with |- context [if ?b then _ else _] => destruct b end; lia. }
  lia.
Qed.

Lemma well_formed_is_parsed (s : string) :
  well_formed_ymd s = true -> exists t, strptime s = inr t.
Proof.
  intros H.
  destruct s as [|y1 [|y2 [|y3 [|y4 [|c5 s]]]]]; try discriminate H.
  destruct (Ascii.eqb_spec c5 "-") as [->|Hne];
    [|destruct c5 as [[] [] [] [] [] [] [] []]; try discriminate H; now elim Hne].
  destruct s as [|m1 [|m2 [|c8 s]]]; try discriminate H.
  destruct (Ascii.eqb_spec c8 "-") as [->|Hne];
    [|destruct c8 as [[] [] [] [] [] [] [] []]; try discriminate H; now elim Hne].
  destruct s as [|d1 [|d2 [|? ?]]]; try discriminate H.
  cbn in H.
  destruct (digit y1) as [a|] eqn:E1; [|discriminate H].
  destruct (digit y2) as [b|] eqn:E2; [|discriminate H].
  destruct (digit y3) as [c|] eqn:E3; [|discriminate H].
  destruct (digit y4) as [d|] eqn:E4; [|discriminate H].
  destruct (digit m1) as [e|] eqn:E5; [|discriminate H].
  destruct (digit m2) as [f|] eqn:E6; [|discriminate H].
  destruct (digit d1) as [g|] eqn:E7; [|discriminate H].
  destruct (digit d2) as [h|] eqn:E8; [|discriminate H].
  destruct (of_ymd _ _ _) as [|t] eqn:E; [discriminate H|]. clear H.
  exists t. destruct (of_ymd_bounds _ _ _ _ E) as [Hm Hd].
  unfold strptime, regex_match, group_Y.
  rewrite (two_digits_any _ _ _ _ _ E1 E2), (two_digits_any _ _ _ _ _ E3 E4).
  cbn [lit Ascii.eqb Bool.eqb].
  rewrite (group_m_padded m1 m2 e f _ _
             (100 * (10 * a + b) + (10 * c + d), 10 * e + f, 10 * g + h, "") E5 E6 Hm).
  - cbn [String.eqb negb].
    replace (100 * (10 * a + b) + (10 * c + d)) with (1000 * a + 100 * b + 10 * c + d)
      by lia.
    exact E.
  - cbn [lit Ascii.eqb Bool.eqb].
    now apply (group_d_padded d1 d2 g h).
Qed.
End Accepts.

Example unpadded_date_is_parsed :
  well_formed_ymd "2024-1-5" = false
  /\ Datetime.strptime "2024-1-5" = Datetime.strptime "2024-01-05".
Proof. split; reflexivity. Qed.







(** The messages of [strptime], as the library words them. *)
Example strptime_messages :
  Datetime.strptime "2024-13-05"
    = inl (ValueError "time data '2024-13-05' does not match format '%Y-%m-%d'")
  /\ Datetime.strptime "2024-01-011" = inl (ValueError "unconverted data remains: 1")
  /\ Datetime.strptime "0000-01-01" = inl (ValueError "year 0 is out of range")
  /\ Datetime.strptime "it's"
     = inl (ValueError
              (String.append "time data "
                 (String.append (String (ascii_of_nat 34)
                                   (String.append "it's" (String (ascii_of_nat 34) "")))
                    " does not match format '%Y-%m-%d'"))).
Proof. repeat split. Qed.

(** ** The scenarios of the specification, run on the sample surroundings *)

Section Scenarios.

(** A: no flags; the window is the year that ends yesterday. *)
Example scenario_backtest_defaults :
  windows (trace (main (Sample.w None) Sample.backtest_my_strategy))
  = [(Sample.clock - 366 * Datetime.US_PER_DAY, Sample.clock - Datetime.US_PER_DAY)]
  /\ broker_constructed (trace (main (Sample.w None) Sample.backtest_my_strategy)) = false.
Proof. split; reflexivity. Qed.

(** C: --live, answered "no". *)
Example scenario_live_declined :
  main (Sample.w (Some "no")) (Sample.live_my_strategy "Kraken")
  = ([ImportModule "my_strategy";
      Print "Configured to run in live mode with broker: Kraken";
      Input "Do you want to proceed? (yes/no): ";
      Print "Operation cancelled."], inr tt)
  /\ exit_status (outcome (main (Sample.w (Some "no")) (Sample.live_my_strategy "Kraken"))) = 0.
Proof. split; reflexivity. Qed.

(** Any spelling of "yes" passes the gate; a padded answer does not. *)
Example scenario_answers :
  PyStr.ci_match "YeS" "yes" = true /\ PyStr.ci_match " yes" "yes" = false
  /\ PyStr.ci_match "y" "yes" = false.
Proof. repeat split. Qed.

(** D: --start 2024-01-01 --end 2024-06-01. *)
Example scenario_explicit_window :
  windows (trace (main (Sample.w None)
    {| strategy_file := "my_strategy.py"; live := false; broker_arg := "Kraken";
       start := Some "2024-01-01"; end_ := Some "2024-06-01" |}))
  = [((Datetime.ymd2ord 2024 1 1 - 1) * Datetime.US_PER_DAY, (Datetime.ymd2ord 2024 6 1 - 1) * Datetime.US_PER_DAY)].
Proof. reflexivity. Qed.

(** E: the module does not exist. *)
Example scenario_import_fails :
  main (Sample.w None)
    {| strategy_file := "missing.py"; live := true; broker_arg := "IB";
       start := None; end_ := None |}
  = ([ImportModule "missing";
      Print "Error importing strategy: No module named 'missing'"],
     inl (SystemExit 1)).
Proof. reflexivity. Qed.

(** [date(2024, 1, 1).toordinal()] and a day that is not in the calendar. *)
Example ordinals :
  Datetime.ymd2ord 2024 1 1 = 738886
  /\ Datetime.strptime "2023-02-29" = inl (ValueError "day is out of range for month")
  /\ Datetime.strptime "2024-02-29" = inr ((Datetime.ymd2ord 2024 2 29 - 1) * Datetime.US_PER_DAY).
Proof. repeat split. Qed.

(** Module names taken from the [strategy_file] argument. *)
Example module_names :
  PyStr.rsplit1 "." "my_strategy.py" = ["my_strategy"; "py"]
  /\ PyStr.rsplit1 "." "my_strategy" = ["my_strategy"]
  /\ PyStr.rsplit1 "." "pkg.strategy.py" = ["pkg.strategy"; "py"].
Proof. repeat split. Qed.

End Scenarios.

(** * Further properties of the script *)

(** ** The live path, in full *)

(** What [run_strategy] does in live mode, case by case. *)
Lemma run_strategy_live
    (w : world) (module_name : option string) (c : pyclass) (broker_choice : string)
    (sd ed : option Datetime.datetime) :
  run_strategy w module_name c true broker_choice sd ed
  = match stdin w with
    | None =>
        ([Print ("Configured to run in live mode with broker: " ++ broker_choice);
          Input "Do you want to proceed? (yes/no): "], inl EOFError)
    | Some answer =>
        if PyStr.ci_match answer "yes"
        then ([Print ("Configured to run in live mode with broker: " ++ broker_choice);
               Input "Do you want to proceed? (yes/no): ";
               NewTrader],
              inl (TypeError
                "configure_broker() missing 1 required positional argument: 'broker_choice'"))
        else ([Print ("Configured to run in live mode with broker: " ++ broker_choice);
               Input "Do you want to proceed? (yes/no): ";
               Print "Operation cancelled."], inr tt)
    end.
Proof.
  unfold run_strategy, input. destruct (stdin w) as [a|]; [|reflexivity].
  cbn [bind print emit ret app]. rewrite lower_yes_iff.
  destruct (PyStr.ci_match a "yes"); reflexivity.
Qed.

(** X1: in live mode, for every broker choice and every answer that
    matches "yes" up to letter case, [run_strategy] constructs the Trader
    and then raises the TypeError of the argument-less call of
    [configure_broker]; nothing follows. *)
Theorem confirmed_live_run_raises_TypeError
    (w : world) (module_name : option string) (c : pyclass) (broker_choice : string)
    (sd ed : option Datetime.datetime) (answer : string) :
  stdin w = Some answer ->
  PyStr.ci_match answer "yes" = true ->
  run_strategy w module_name c true broker_choice sd ed
  = ([Print ("Configured to run in live mode with broker: " ++ broker_choice);
      Input "Do you want to proceed? (yes/no): ";
      NewTrader],
     inl (TypeError
       "configure_broker() missing 1 required positional argument: 'broker_choice'")).
Proof. intros Hin Hyes. now rewrite run_strategy_live, Hin, Hyes. Qed.

Lemma confirmed_live_run_raises_TypeError_witness :
  stdin (Sample.w (Some "YES")) = Some "YES"
  /\ PyStr.ci_match "YES" "yes" = true
  /\ outcome (run_strategy (Sample.w (Some "YES")) (Some "my_strategy")
                Sample.MyStrategy true "Kraken" None None)
     = inl (TypeError
         "configure_broker() missing 1 required positional argument: 'broker_choice'").
Proof.
  split; [reflexivity|]. split; [reflexivity|].
  now rewrite (confirmed_live_run_raises_TypeError (Sample.w (Some "YES"))
                 (Some "my_strategy") Sample.MyStrategy "Kraken" None None "YES"
                 eq_refl eq_refl).
Defined.

(** X4: at end of input the prompt raises EOFError: the configuration line
    and the prompt are written, nothing is constructed. *)
Theorem end_of_input_at_prompt
    (w : world) (module_name : option string) (c : pyclass) (broker_choice : string)
    (sd ed : option Datetime.datetime) :
  stdin w = None ->
  run_strategy w module_name c true broker_choice sd ed
  = ([Print ("Configured to run in live mode with broker: " ++ broker_choice);
      Input "Do you want to proceed? (yes/no): "], inl EOFError).
Proof. intros Hin. now rewrite run_strategy_live, Hin. Qed.

Lemma end_of_input_at_prompt_witness :
  stdin (Sample.w None) = None
  /\ run_strategy (Sample.w None) None Sample.MyStrategy true "IB" None None
     = ([Print "Configured to run in live mode with broker: IB";
         Input "Do you want to proceed? (yes/no): "], inl EOFError).
Proof.
  split; [reflexivity|].
  exact (end_of_input_at_prompt (Sample.w None) None Sample.MyStrategy "IB"
           None None eq_refl).
Defined.

Lemma lower_char_inv (c : ascii) :
  (PyStr.lower_char c = "y"%char -> c = "y"%char \/ c = "Y"%char)
  /\ (PyStr.lower_char c = "e"%char -> c = "e"%char \/ c = "E"%char)
  /\ (PyStr.lower_char c = "s"%char -> c = "s"%char \/ c = "S"%char).
Proof.
  destruct c as [[] [] [] [] [] [] [] []]; vm_compute;
    repeat split; intros H; try discriminate H; auto.
Qed.

Lemma lower_is_yes (s : string) :
  PyStr.lower s = "yes" <-> In s affirmative_spellings.
Proof.
  split.
  - destruct s as [|a [|b [|c [|d s]]]]; try discriminate.
    simpl. intros [= Ha Hb Hc].
    apply (proj1 (lower_char_inv a)) in Ha.
    apply (proj1 (proj2 (lower_char_inv b))) in Hb.
    apply (proj2 (proj2 (lower_char_inv c))) in Hc.
    destruct Ha as [-> | ->], Hb as [-> | ->], Hc as [-> | ->]; simpl; tauto.
  - simpl. intuition (subst; reflexivity).
Qed.

(** X3: the confirmation is taken as given exactly for the eight
    spellings of "yes" in upper and lower case; for any other answer
    (padded with blanks, "y", ...) no Trader is constructed. *)
Theorem gate_passes_exactly_for_spellings_of_yes
    (w : world) (module_name : option string) (c : pyclass) (broker_choice : string)
    (sd ed : option Datetime.datetime) (answer : string) :
  stdin w = Some answer ->
  (trader_constructed (trace (run_strategy w module_name c true broker_choice sd ed)) = true
   <-> In answer affirmative_spellings).
Proof.
  intros Hin. rewrite run_strategy_live, Hin, <- lower_is_yes.
  rewrite <- (String.eqb_eq (PyStr.lower answer) "yes"), lower_yes_iff.
  destruct (PyStr.ci_match answer "yes"); simpl; split; congruence.
Qed.

Lemma gate_passes_exactly_for_spellings_of_yes_witness :
  stdin (Sample.w (Some "yes ")) = Some "yes "
  /\ ~ In "yes " affirmative_spellings
  /\ trader_constructed (trace (run_strategy (Sample.w (Some "yes ")) None
                                  Sample.MyStrategy true "IB" None None)) = false.
Proof.
  split; [reflexivity|].
  pose proof (gate_passes_exactly_for_spellings_of_yes (Sample.w (Some "yes ")) None
                Sample.MyStrategy "IB" None None "yes " eq_refl) as H.
  split.
  - intros Hin. apply H in Hin. discriminate Hin.
  - reflexivity.
Defined.

(** X5: in live mode what [run_strategy] does depends on the operator's
    answer and the broker choice only: the dates, the [module_name] global,
    the clock, the credentials and, as the run never gets to instantiate
    it, the strategy class play no part. *)
Theorem live_run_ignores_dates_and_clock
    (w w' : world) (module_name module_name' : option string) (c c' : pyclass)
    (broker_choice : string) (sd ed sd' ed' : option Datetime.datetime) :
  stdin w = stdin w' ->
  run_strategy w module_name c true broker_choice sd ed
  = run_strategy w' module_name' c' true broker_choice sd' ed'.
Proof. intros Hin. now rewrite !run_strategy_live, Hin. Qed.

Lemma live_run_ignores_dates_and_clock_witness :
  run_strategy (Sample.w (Some "no")) (Some "a") Sample.MyStrategy true "IB"
    (Some 0) None
  = run_strategy {| now := 0; stdin := Some "no"; modules := fun _ => inl EOFError;
                    credentials := Sample.creds |}
      None Sample.Alpha true "IB" None (Some 1).
Proof.
  exact (live_run_ignores_dates_and_clock (Sample.w (Some "no"))
           {| now := 0; stdin := Some "no"; modules := fun _ => inl EOFError;
              credentials := Sample.creds |}
           (Some "a") None Sample.MyStrategy Sample.Alpha "IB" (Some 0) None None (Some 1)
           eq_refl).
Defined.

(** ** What no invocation does *)

Lemma live_run_quiet (P : event -> bool)
    (w : world) (module_name : option string) (c : pyclass) (broker_choice : string)
    (sd ed : option Datetime.datetime) :
  (forall line, P (Print line) = false) ->
  (forall line, P (Input line) = false) ->
  P NewTrader = false ->
  existsb P (trace (run_strategy w module_name c true broker_choice sd ed)) = false.
Proof.
  intros Hp Hi Ht. rewrite run_strategy_live.
  destruct (stdin w) as [a|]; [destruct (PyStr.ci_match a "yes")|];
    simpl; now rewrite ?Hp, ?Hi, ?Ht.
Qed.

Lemma backtest_run_quiet (P : event -> bool)
    (w : world) (module_name : option string) (c : pyclass) (broker_choice : string)
    (sd ed : option Datetime.datetime) :
  (forall line, P (Print line) = false) ->
  (forall cls a, P (Backtest cls a) = false) ->
  existsb P (trace (run_strategy w module_name c false broker_choice sd ed)) = false.
Proof.
  intros Hp Hb. unfold run_strategy, getitem, print, emit.
  repeat quiet_step; simpl; rewrite ?Hp, ?Hb; try reflexivity.
  - now destruct (POLYGON_CONFIG (credentials w) !! "API_KEY").
  - now destruct module_name.
Qed.

(** X2: no invocation of the script, whatever the arguments, the answer
    and the surroundings, constructs a broker connection, instantiates or
    registers the strategy, or starts the live runner. *)
Theorem no_invocation_trades (w : world) (args : arguments) :
  broker_constructed (trace (main w args)) = false
  /\ strategy_bound (trace (main w args)) = false
  /\ runner_started (trace (main w args)) = false.
Proof.
  repeat split; apply main_trace_quiet; try reflexivity; intros;
    (destruct (live args); [apply live_run_quiet | apply backtest_run_quiet]);
    reflexivity.
Qed.

(** X6: a backtest invocation runs unattended: it never asks for
    confirmation and never constructs a Trader, whatever the arguments and
    the surroundings. *)
Theorem backtest_invocation_is_unattended (w : world) (args : arguments) :
  live args = false ->
  prompted (trace (main w args)) = false
  /\ trader_constructed (trace (main w args)) = false.
Proof.
  intros Hlive.
  split; apply main_trace_quiet; try reflexivity; intros; rewrite Hlive;
    apply backtest_run_quiet; reflexivity.
Qed.

Lemma backtest_invocation_is_unattended_witness :
  live Sample.backtest_my_strategy = false
  /\ prompted (trace (main (Sample.w None) Sample.backtest_my_strategy)) = false.
Proof.
  split; [reflexivity|].
  exact (proj1 (backtest_invocation_is_unattended (Sample.w None)
                  Sample.backtest_my_strategy eq_refl)).
Defined.

(** ** Edge behaviour of the backtest path *)

(** What [run_strategy] does in backtest mode depends on the clock and the
    credentials only, not on the broker choice, the operator's input or the
    import system. *)
Lemma backtest_run_ignores_broker_and_input
    (w w' : world) (module_name : option string) (c : pyclass)
    (broker_choice broker_choice' : string) (sd ed : option Datetime.datetime) :
  now w = now w' ->
  credentials w = credentials w' ->
  run_strategy w module_name c false broker_choice sd ed
  = run_strategy w' module_name c false broker_choice' sd ed.
Proof. intros Hnow Hcred. unfold run_strategy. now rewrite Hnow, Hcred. Qed.

Lemma backtest_run_ignores_broker_and_input_witness :
  run_strategy (Sample.w None) (Some "m") Sample.MyStrategy false "IB" None None
  = run_strategy (Sample.w (Some "yes")) (Some "m") Sample.MyStrategy false "Binance"
      None None.
Proof.
  exact (backtest_run_ignores_broker_and_input (Sample.w None) (Sample.w (Some "yes"))
           (Some "m") Sample.MyStrategy "IB" "Binance" None None eq_refl eq_refl).
Defined.

(** X7: when POLYGON_CONFIG has no "API_KEY", the backtest path prints
    "Starting Backtest..." and then raises KeyError; the engine is not
    called. *)
Theorem backtest_without_api_key
    (w : world) (module_name : option string) (c : pyclass) (broker_choice : string)
    (sd ed : option Datetime.datetime) :
  clock_ok w ->
  POLYGON_CONFIG (credentials w) !! "API_KEY" = None ->
  run_strategy w module_name c false broker_choice sd ed
  = ([Print "Starting Backtest..."], inl (KeyError "API_KEY")).
Proof.
  intros Hclock Hkey. unfold run_strategy, getitem.
  rewrite (yesterday_ok w Hclock). cbn [lift bind app].
  rewrite (one_year_from_yesterday_ok w Hclock). cbn [lift bind app print emit].
  now rewrite Hkey.
Qed.

Lemma backtest_without_api_key_witness :
  run_strategy {| now := Sample.clock; stdin := None; modules := Sample.importer;
                  credentials := {| INTERACTIVE_BROKERS_CONFIG := ∅;
                                    KRAKEN_CONFIG := ∅;
                                    POLYGON_CONFIG := {[ "KEY" := "pk" ]} |} |}
    (Some "my_strategy") Sample.MyStrategy false "Kraken" None None
  = ([Print "Starting Backtest..."], inl (KeyError "API_KEY")).
Proof.
  apply backtest_without_api_key; [split; [discriminate | reflexivity] | reflexivity].
Defined.

(** X8: [run_strategy] reads the global [module_name], which only the
    main block binds: called in backtest mode without it, it prints
    "Starting Backtest..." and raises NameError; the engine is not
    called. *)
Theorem backtest_without_module_name_global
    (w : world) (key : string) (c : pyclass) (broker_choice : string)
    (sd ed : option Datetime.datetime) :
  clock_ok w ->
  POLYGON_CONFIG (credentials w) !! "API_KEY" = Some key ->
  run_strategy w None c false broker_choice sd ed
  = ([Print "Starting Backtest..."],
     inl (NameError "name 'module_name' is not defined")).
Proof.
  intros Hclock Hkey. unfold run_strategy, getitem.
  rewrite (yesterday_ok w Hclock). cbn [lift bind app].
  rewrite (one_year_from_yesterday_ok w Hclock). cbn [lift bind app print emit].
  now rewrite Hkey.
Qed.

Lemma backtest_without_module_name_global_witness :
  run_strategy (Sample.w None) None Sample.MyStrategy false "Kraken" None None
  = ([Print "Starting Backtest..."],
     inl (NameError "name 'module_name' is not defined")).
Proof.
  exact (backtest_without_module_name_global (Sample.w None) "pk" Sample.MyStrategy
           "Kraken" None None (sample_clock_ok None) (sample_key None)).
Defined.

(** X9: with one bound supplied the other is the default, so the window
    can come out inverted: with only an end date, start <= end holds exactly
    when the end date is not before [now - 366 days]; with only a start
    date, exactly when it is not after [now - 1 day]. *)
Theorem one_sided_window_order
    (w : world) (key name : string) (c : pyclass) (broker_choice : string)
    (d : Datetime.datetime) :
  clock_ok w ->
  POLYGON_CONFIG (credentials w) !! "API_KEY" = Some key ->
  (exists s0, windows (trace (run_strategy w (Some name) c false broker_choice
                                 None (Some d))) = [(s0, d)]
              /\ (s0 <= d <-> now w - 366 * Datetime.US_PER_DAY <= d))
  /\ (exists e0, windows (trace (run_strategy w (Some name) c false broker_choice
                                    (Some d) None)) = [(d, e0)]
                 /\ (d <= e0 <-> d <= now w - Datetime.US_PER_DAY)).
Proof.
  intros Hclock Hkey. rewrite !(run_strategy_backtest w key Hclock Hkey).
  split; eexists; (split; [reflexivity|]); cbn [bt_start bt_end fst snd]; lia.
Qed.

Lemma one_sided_window_order_witness :
  exists s0, windows (trace (run_strategy (Sample.w None) (Some "my_strategy")
                               Sample.MyStrategy false "Kraken" None (Some 0)))
             = [(s0, 0)]
             /\ ~ s0 <= 0.
Proof.
  destruct (one_sided_window_order (Sample.w None) "pk" "my_strategy"
              Sample.MyStrategy "Kraken" 0 (sample_clock_ok None) (sample_key None))
    as [(s0 & Hw & Hord) _].
  exists s0. split; [exact Hw|].
  intros Hle. apply Hord in Hle. revert Hle. vm_compute. intros H. now apply H.
Defined.

(** ** The whole process *)

(** X10: a live invocation whose strategy resolves and whose dates
    convert, answered with anything but a spelling of "yes", imports the
    module, asks, prints the cancellation notice and ends with exit
    status 0. *)
Theorem declined_live_invocation_exits_zero
    (w : world) (args : arguments) (m : pymodule) (c : pyclass)
    (sd ed : option Datetime.datetime) (answer : string) :
  live args = true ->
  modules w (module_name_of args) = inr m ->
  find_strategy_class m = Some c ->
  outcome (parse_date (start args)) = inr sd ->
  outcome (parse_date (end_ args)) = inr ed ->
  stdin w = Some answer ->
  PyStr.ci_match answer "yes" = false ->
  main w args
  = ([ImportModule (module_name_of args);
      Print ("Configured to run in live mode with broker: " ++ broker_arg args);
      Input "Do you want to proceed? (yes/no): ";
      Print "Operation cancelled."], inr tt)
  /\ exit_status (outcome (main w args)) = 0.
Proof.
  intros Hlive Hm Hc Hs He Hin Hno.
  assert (H : main w args
    = ([ImportModule (module_name_of args);
        Print ("Configured to run in live mode with broker: " ++ broker_arg args);
        Input "Do you want to proceed? (yes/no): ";
        Print "Operation cancelled."], inr tt)).
  { rewrite (main_dispatches w args m c sd ed Hm Hc Hs He), Hlive.
    now rewrite run_strategy_live, Hin, Hno. }
  now rewrite H.
Qed.

Lemma declined_live_invocation_exits_zero_witness :
  exit_status (outcome (main (Sample.w (Some "nope")) (Sample.live_my_strategy "IB"))) = 0.
Proof.
  exact (proj2 (declined_live_invocation_exits_zero (Sample.w (Some "nope"))
                  (Sample.live_my_strategy "IB") Sample.my_strategy Sample.MyStrategy
                  None None "nope" eq_refl eq_refl eq_refl eq_refl eq_refl eq_refl
                  eq_refl)).
Defined.

(** X11: in every invocation the call of [importlib.import_module] on
    the module named by [strategy_file] up to its last dot is the first
    thing the main block does: the strategy module's code runs before any
    date is looked at, before the operator is asked and before any engine
    call, also when the run is then cancelled or fails. *)
Theorem import_comes_first (w : world) (args : arguments) :
  exists rest, trace (main w args) = ImportModule (module_name_of args) :: rest.
Proof.
  destruct (modules w (module_name_of args)) as [e|m] eqn:Hm.
  - unfold main, import_module. rewrite Hm.
    destruct e; simpl; eexists; reflexivity.
  - destruct (find_strategy_class m) as [c|] eqn:Hc.
    + rewrite (main_resolved w args m c Hm Hc).
      rewrite (parse_date_eta (start args)), (parse_date_eta (end_ args)).
      destruct (outcome (parse_date (start args))) as [e1|sd];
        [eexists; reflexivity|].
      destruct (outcome (parse_date (end_ args))) as [e2|ed];
        [eexists; reflexivity|].
      cbn [emit bind app].
      destruct (run_strategy _ _ _ _ _ _ _) as [t r].
      exists t. reflexivity.
    + unfold main, import_module. rewrite Hm. cbn [emit lift bind app]. rewrite Hc.
      simpl. eexists; reflexivity.
Qed.

(** ** More on the strategy resolver *)

Section ResolverMore.

Lemma find_strategy_class_Some (m : pymodule) (c : pyclass) :
  find_strategy_class m = Some c ->
  cls_module c = mod_name m
  /\ exists n, In (n, PyClass c) (mod_dict m)
       /\ forall n' c', In (n', PyClass c') (mod_dict m) ->
            cls_module c' = mod_name m -> String.leb n n' = true.
Proof.
  unfold find_strategy_class. intros Hf.
  pose proof (find_loop_sorted (mod_name m) (getmembers m isclass)
                (sort_by_name_sorted _)) as H.
  rewrite Hf in H. destruct H as (Hc & n & Hin & Hmin). split; [exact Hc|].
  exists n. split; [now apply In_getmembers_isclass|].
  intros n' c' Hin' Hloc. apply (Hmin n' c'); [|exact Hloc].
  now apply In_getmembers_isclass.
Qed.

Lemma find_strategy_class_None (m : pymodule) (n : string) (c : pyclass) :
  find_strategy_class m = None ->
  In (n, PyClass c) (mod_dict m) -> cls_module c <> mod_name m.
Proof.
  unfold find_strategy_class. intros Hf Hin.
  pose proof (find_loop_sorted (mod_name m) (getmembers m isclass)
                (sort_by_name_sorted _)) as H.
  rewrite Hf in H. apply (H n c). now apply In_getmembers_isclass.
Qed.

Lemma binding_unique {A : Type} (l : list (string * A)) (k : string) (v v' : A) :
  List.NoDup (map fst l) -> In (k, v) l -> In (k, v') l -> v = v'.
Proof.
  induction l as [|[k0 v0] l IH]; simpl; [tauto|].
  intros Hnd [Hv|Hv] [Hv'|Hv']; inversion Hnd as [|? ? Hnotin Hnd']; subst.
  - congruence.
  - injection Hv as -> ->. elim Hnotin. now apply (in_map fst _ (k, v')).
  - injection Hv' as -> ->. elim Hnotin. now apply (in_map fst _ (k, v)).
  - now apply IH.
Qed.

Lemma sort_by_name_sorted_id (l : list (string * pyobj)) :
  StronglySorted name_le l -> sort_by_name l = l.
Proof.
  induction 1 as [|x l Hs IH Hx]; [reflexivity|].
  change (sort_by_name (x :: l)) with (insert_by_name x (sort_by_name l)).
  rewrite IH.
  destruct l as [|q r]; simpl; [reflexivity|].
  inversion Hx as [|? ? Hxq _]; subst. unfold name_le in Hxq. now rewrite Hxq.
Qed.

Lemma find_loop_local (module_name : string) (d : list (string * pyobj)) :
  find_loop module_name (List.filter (is_local_class module_name) d)
  = find_loop module_name d.
Proof.
  induction d as [|[n [c|r]] d IH]; simpl; [reflexivity| |exact IH].
  unfold is_local_class at 1. simpl.
  destruct (String.eqb (cls_module c) module_name) eqn:E; simpl; [now rewrite E|exact IH].
Qed.

Lemma insert_by_name_least (p : string * pyobj) (l : list (string * pyobj)) :
  Forall (name_le p) l -> insert_by_name p l = p :: l.
Proof.
  destruct l as [|q r]; [reflexivity|]. simpl.
  intros H. inversion H as [|? ? Hpq _]; subst. unfold name_le in Hpq. now rewrite Hpq.
Qed.

Lemma filter_insert_by_name (f : string * pyobj -> bool) (p : string * pyobj)
    (l : list (string * pyobj)) :
  StronglySorted name_le l ->
  List.filter f (insert_by_name p l)
  = if f p then insert_by_name p (List.filter f l) else List.filter f l.
Proof.
  induction 1 as [|q r Hs IH Hq]; simpl.
  - now destruct (f p).
  - destruct (String.leb (fst p) (fst q)) eqn:Hpq; simpl.
    + destruct (f p); [|reflexivity].
      change (if f q then q :: List.filter f r else List.filter f r)
        with (List.filter f (q :: r)).
      rewrite insert_by_name_least; [reflexivity|].
      rewrite List.Forall_forall. intros x Hx. apply List.filter_In in Hx as [Hx _].
      destruct Hx as [<-|Hx]; [exact Hpq|].
      rewrite List.Forall_forall in Hq.
      exact (string_leb_trans _ _ _ Hpq (Hq x Hx)).
    + rewrite IH. destruct (f q), (f p); simpl; rewrite ?Hpq; reflexivity.
Qed.

Lemma filter_sort_by_name (f : string * pyobj -> bool) (l : list (string * pyobj)) :
  List.filter f (sort_by_name l) = sort_by_name (List.filter f l).
Proof.
  induction l as [|x l IH]; [reflexivity|].
  change (sort_by_name (x :: l)) with (insert_by_name x (sort_by_name l)).
  rewrite (filter_insert_by_name f x _ (sort_by_name_sorted l)), IH. simpl.
  now destruct (f x).
Qed.

Lemma filter_local_class (module_name : string) (d : list (string * pyobj)) :
  List.filter (is_local_class module_name) (List.filter (fun p => isclass (snd p)) d)
  = List.filter (is_local_class module_name) d.
Proof.
  induction d as [|[n [c|r]] d IH]; simpl; [reflexivity| |exact IH].
  destruct (is_local_class module_name (n, PyClass c)); now rewrite IH.
Qed.

End ResolverMore.

(** X12: when exactly one class of the module's namespace is defined in
    the module itself, the resolver returns that class, wherever it is
    declared and whatever else the module imports. *)
Theorem resolver_returns_the_only_local_class
    (m : pymodule) (n : string) (c : pyclass) :
  In (n, PyClass c) (mod_dict m) ->
  cls_module c = mod_name m ->
  (forall n' c', In (n', PyClass c') (mod_dict m) -> cls_module c' = mod_name m ->
     c' = c) ->
  find_strategy_class m = Some c.
Proof.
  intros Hin Hloc Honly.
  destruct (find_strategy_class m) as [c0|] eqn:Hf.
  - destruct (find_strategy_class_Some m c0 Hf) as (Hc0 & n0 & Hin0 & _).
    now rewrite (Honly n0 c0 Hin0 Hc0).
  - now elim (find_strategy_class_None m n c Hf Hin).
Qed.

Lemma resolver_returns_the_only_local_class_witness :
  find_strategy_class Sample.my_strategy = Some Sample.MyStrategy.
Proof.
  apply (resolver_returns_the_only_local_class Sample.my_strategy "MyStrategy").
  - simpl. tauto.
  - reflexivity.
  - simpl. intros n' c' [H|[H|[H|[]]]] Hloc; inversion H; subst;
      [discriminate Hloc | reflexivity].
Defined.

(** X13: the resolver's choice does not depend on the order in which the
    module makes its bindings: two modules of the same name whose
    namespaces hold the same bindings, each name bound once, resolve to the
    same class. *)
Theorem resolver_ignores_declaration_order (m m' : pymodule) :
  mod_name m = mod_name m' ->
  List.NoDup (map fst (mod_dict m)) ->
  Permutation (mod_dict m) (mod_dict m') ->
  find_strategy_class m = find_strategy_class m'.
Proof.
  intros Hname Hnd Hperm.
  assert (Hin : forall x, In x (mod_dict m') <-> In x (mod_dict m)).
  { intros x. split; apply Permutation_in; [symmetry|]; exact Hperm. }
  destruct (find_strategy_class m) as [c|] eqn:Hf;
  destruct (find_strategy_class m') as [c'|] eqn:Hf'; try reflexivity.
  - destruct (find_strategy_class_Some m c Hf) as (Hc & n & Hn & Hmin).
    destruct (find_strategy_class_Some m' c' Hf') as (Hc' & n' & Hn' & Hmin').
    apply Hin in Hn'. rewrite <- Hname in Hc', Hmin'.
    assert (n = n') as <-.
    { apply String.leb_antisym; [now apply (Hmin n' c')|].
      apply (Hmin' n c); [now apply Hin | exact Hc]. }
    f_equal. pose proof (binding_unique _ _ _ _ Hnd Hn Hn') as E. now injection E.
  - destruct (find_strategy_class_Some m c Hf) as (Hc & n & Hn & _).
    apply Hin in Hn. rewrite Hname in Hc.
    now elim (find_strategy_class_None m' n c Hf' Hn).
  - destruct (find_strategy_class_Some m' c' Hf') as (Hc' & n' & Hn' & _).
    apply Hin in Hn'. rewrite <- Hname in Hc'.
    now elim (find_strategy_class_None m n' c' Hf Hn').
Qed.

Lemma resolver_ignores_declaration_order_witness :
  List.NoDup (map fst (mod_dict Sample.two))
  /\ Permutation (mod_dict Sample.two) (mod_dict Sample.two_swapped)
  /\ local_class_bindings Sample.two <> local_class_bindings Sample.two_swapped
  /\ first_declared_class Sample.two <> first_declared_class Sample.two_swapped
  /\ find_strategy_class Sample.two = find_strategy_class Sample.two_swapped.
Proof.
  assert (Hnd : List.NoDup (map fst (mod_dict Sample.two)))
    by (simpl; repeat constructor; simpl; intuition discriminate).
  assert (Hperm : Permutation (mod_dict Sample.two) (mod_dict Sample.two_swapped))
    by (simpl; do 2 apply perm_skip; apply perm_swap).
  split; [exact Hnd|]. split; [exact Hperm|].
  split; [discriminate|]. split; [discriminate|].
  exact (resolver_ignores_declaration_order Sample.two Sample.two_swapped
           eq_refl Hnd Hperm).
Defined.

(** X14: when the classes that the module defines itself are bound in
    the order of their names, the resolver returns the first of them in
    declaration order. *)
Theorem resolver_is_first_declared_when_in_name_order (m : pymodule) :
  StronglySorted name_le (local_class_bindings m) ->
  find_strategy_class m = first_declared_class m.
Proof.
  intros Hs. unfold find_strategy_class, first_declared_class, getmembers.
  rewrite <- (find_loop_local (mod_name m) (sort_by_name _)).
  rewrite filter_sort_by_name, filter_local_class.
  fold (local_class_bindings m). rewrite (sort_by_name_sorted_id _ Hs).
  apply find_loop_local.
Qed.

Lemma resolver_is_first_declared_when_in_name_order_witness :
  local_class_bindings Sample.two_swapped
    = [("Alpha", PyClass Sample.Alpha); ("Zeta", PyClass Sample.Zeta)]
  /\ StronglySorted name_le (local_class_bindings Sample.two_swapped)
  /\ find_strategy_class Sample.two_swapped = first_declared_class Sample.two_swapped
  /\ first_declared_class Sample.two_swapped = Some Sample.Alpha.
Proof.
  assert (H : StronglySorted name_le (local_class_bindings Sample.two_swapped))
    by (repeat constructor).
  split; [reflexivity|]. split; [exact H|].
  split; [|reflexivity].
  exact (resolver_is_first_declared_when_in_name_order Sample.two_swapped H).
Defined.

(** ** From the command line to the module and the window *)

(** X15: the module that is imported is [strategy_file] cut at its last
    dot: for [base.ext] with no dot in [ext] it is [base], so that a dotted
    module path given without ".py" loses its last component; a
    [strategy_file] without a dot is taken as it is. *)
Theorem module_name_cuts_at_last_dot (args : arguments) :
  (forall base ext, strategy_file args = base ++ "." ++ ext ->
     PyStr.contains "." ext = false -> module_name_of args = base)
  /\ (PyStr.contains "." (strategy_file args) = false ->
      module_name_of args = strategy_file args).
Proof.
  split.
  - intros base ext Hf Hext.
    apply (extension_stripped_unique (strategy_file args)); [reflexivity|].
    left. now exists ext.
  - intros Hno.
    apply (extension_stripped_unique (strategy_file args)); [reflexivity|].
    now right.
Qed.

Lemma module_name_cuts_at_last_dot_witness :
  module_name_of {| strategy_file := "strategies.momentum"; live := false;
                    broker_arg := "Kraken"; start := None; end_ := None |}
  = "strategies".
Proof.
  apply (proj1 (module_name_cuts_at_last_dot
                  {| strategy_file := "strategies.momentum"; live := false;
                     broker_arg := "Kraken"; start := None; end_ := None |})
           "strategies" "momentum"); reflexivity.
Defined.

(** X16: a backtest invocation with a well-formed --start and a
    well-formed --end imports the module, prints "Starting Backtest...",
    calls the engine once with the two dates as [strptime] reads them, in
    the order given (no check that start <= end), and ends normally. *)
Theorem backtest_with_well_formed_dates
    (w : world) (args : arguments) (m : pymodule) (c : pyclass)
    (key s e : string) :
  live args = false ->
  start args = Some s -> well_formed_ymd s = true ->
  end_ args = Some e -> well_formed_ymd e = true ->
  modules w (module_name_of args) = inr m ->
  find_strategy_class m = Some c ->
  clock_ok w ->
  POLYGON_CONFIG (credentials w) !! "API_KEY" = Some key ->
  exists (ts te : Datetime.datetime) (a : backtest_args),
    Datetime.strptime s = inr ts /\ Datetime.strptime e = inr te
    /\ bt_start a = ts /\ bt_end a = te
    /\ main w args
       = ([ImportModule (module_name_of args); Print "Starting Backtest...";
           Backtest c a], inr tt).
Proof.
  intros Hlive Hs Hws He Hwe Hm Hc Hclock Hkey.
  destruct (well_formed_is_parsed s Hws) as [ts Hts].
  destruct (well_formed_is_parsed e Hwe) as [te Hte].
  assert (Hps : outcome (parse_date (start args)) = inr (Some ts)).
  { rewrite Hs. unfold parse_date.
    destruct (String.eqb_spec s "") as [->|_]; [discriminate Hws|]. now rewrite Hts. }
  assert (Hpe : outcome (parse_date (end_ args)) = inr (Some te)).
  { rewrite He. unfold parse_date.
    destruct (String.eqb_spec e "") as [->|_]; [discriminate Hwe|]. now rewrite Hte. }
  exists ts, te,
    {| bt_datasource := PolygonDataBacktesting;
       bt_start := ts; bt_end := te;
       polygon_api_key := key;
       polygon_has_paid_subscription := true;
       bt_risk_free_rate := 5.233%Q;
       buy_trading_fees := [{| percent_fee := 0.005 |}];
       sell_trading_fees := [{| percent_fee := 0.005 |}];
       logfile := "logs/" ++ module_name_of args ++ ".log";
       parameters := ∅ |}.
  split; [exact Hts|]. split; [exact Hte|].
  split; [reflexivity|]. split; [reflexivity|].
  rewrite (main_dispatches w args m c _ _ Hm Hc Hps Hpe), Hlive.
  now rewrite (run_strategy_backtest w key Hclock Hkey).
Qed.

Lemma backtest_with_well_formed_dates_witness :
  exists (ts te : Datetime.datetime) (a : backtest_args),
    Datetime.strptime "2024-06-01" = inr ts /\ Datetime.strptime "2024-01-01" = inr te
    /\ bt_start a = ts /\ bt_end a = te
    /\ main (Sample.w None)
         {| strategy_file := "my_strategy.py"; live := false; broker_arg := "Kraken";
            start := Some "2024-06-01"; end_ := Some "2024-01-01" |}
       = ([ImportModule "my_strategy"; Print "Starting Backtest...";
           Backtest Sample.MyStrategy a], inr tt).
Proof.
  apply (backtest_with_well_formed_dates (Sample.w None)
           {| strategy_file := "my_strategy.py"; live := false; broker_arg := "Kraken";
              start := Some "2024-06-01"; end_ := Some "2024-01-01" |}
           Sample.my_strategy Sample.MyStrategy "pk" "2024-06-01" "2024-01-01"
           eq_refl eq_refl eq_refl eq_refl eq_refl eq_refl eq_refl
           (sample_clock_ok None) (sample_key None)).
Defined.
